(** * Identity and workflow authorization of the job-matching API

    A shallow embedding of the Express/Prisma handlers of
    [src/lib/auth.ts], [src/middleware/auth.middleware.ts],
    [src/routes/auth.routes.ts], [src/routes/application.routes.ts] and the
    job routes (mounted at [/api/jobs]; they follow the job-seeker routes in
    [src/routes/job-seeker.routes.ts]), and the properties of the recovery
    protocol, the ownership checks and the two status workflows.

    Conventions of the embedding:
    - a handler is a function from the store to a response and a store;
      [return res.status(..).json(..)] is an early exit, a thrown error is
      caught by the handler's own [catch] block;
    - the relational store is a record of tables, each table a list of rows
      in insertion order; [findUnique]/[findFirst] return the first row that
      satisfies the [where] clause;
    - the libraries the code calls (bcryptjs, jsonwebtoken, zod's e-mail
      format, [parseInt]) are the fields of the class [Externals];
    - the clock, [Math.random()] and the store faults of a request are the
      fields of [Env]; a double is a whole number of units of [2^-1074];
    - what a handler prints on the console is left out. *)

From Stdlib Require Import ZArith String Ascii List Bool Lia.
From Stdlib Require PrimFloat SpecFloat FloatOps.
Import ListNotations.

Local Open Scope string_scope.
Local Open Scope Z_scope.

(** ** JSON values and responses *)

(** The JSON values the handlers read and write.  Numbers are the integral
    ones (ids, status codes); the handlers below read no other number. *)
#[warnings="-register-all"]
Inductive Json : Type :=
| JUndefined
| JNull
| JBool (b : bool)
| JNum (n : Z)
| JStr (s : string)
| JArr (items : list Json)
| JObj (fields : list (string * Json)).

(** [body.key] on a parsed JSON body: [undefined] on a missing key or on a
    body that is not an object. *)
Fixpoint assoc_get (key : string) (fields : list (string * Json)) : Json :=
  match fields with
  | [] => JUndefined
  | (k, v) :: rest => if String.eqb k key then v else assoc_get key rest
  end.

Definition get_field (key : string) (body : Json) : Json :=
  match body with
  | JObj fields => assoc_get key fields
  | _ => JUndefined
  end.

(** [res.status(code).json(body)]. *)
Record Response : Type := mkResponse {
  res_status : Z;
  res_body : Json
}.

Definition json_error (msg : string) : Json := JObj [("error", JStr msg)].
Definition json_message (msg : string) : Json := JObj [("message", JStr msg)].

(** ** Decimal rendering of integers: [Number.prototype.toString] *)

Module Decimal.

Definition digit_char (d : Z) : ascii := ascii_of_nat (48 + Z.to_nat d).

Definition is_digit (c : ascii) : bool :=
  let n := nat_of_ascii c in (48 <=? n)%nat && (n <=? 57)%nat.

Definition digit_value (c : ascii) : Z := Z.of_nat (nat_of_ascii c) - 48.

(** Most significant digit first; [fuel] bounds the number of digits. *)
Fixpoint render (fuel : nat) (n : Z) (acc : string) : string :=
  match fuel with
  | O => acc
  | S fuel' =>
      let acc' := String (digit_char (n mod 10)) acc in
      if n <? 10 then acc' else render fuel' (n / 10) acc'
  end.

(** [n.toString()] for an integral number [n]. *)
Definition toString (n : Z) : string :=
  if n <? 0
  then String "-" (render (S (Z.to_nat (Z.log2 (- n)))) (- n) EmptyString)
  else render (S (Z.to_nat (Z.log2 n))) n EmptyString.

Fixpoint all_digits (s : string) : bool :=
  match s with
  | EmptyString => true
  | String c rest => is_digit c && all_digits rest
  end.

(** The number a string of decimal digits denotes. *)
Fixpoint value_from (acc : Z) (s : string) : Z :=
  match s with
  | EmptyString => acc
  | String c rest => value_from (10 * acc + digit_value c) rest
  end.

Definition value (s : string) : Z := value_from 0 s.

End Decimal.

(** ** Double-precision numbers

    A finite double that is not negative is a whole number of units of
    [2^-1074] (the smallest positive double) with at most 53 significant
    bits; it is modelled as that number of units.  The product and the sum
    of such numbers are taken exactly, in units, and rounded to 53
    significant bits, to nearest and ties to even, as IEEE 754 has it.  The
    numbers met here are far below the overflow threshold. *)

Module Binary64.

(** [1.0], in units. *)
Definition one : Z := 2 ^ 1074.

(** The weight of the last of the 53 significant bits of [n]: one unit
    for the subnormal numbers and the first normal binade. *)
Definition ulp (n : Z) : Z := 2 ^ Z.max 0 (Z.log2 n - 52).

(** [n] units is a double. *)
Definition representable (n : Z) : bool := (0 <=? n) && (n mod ulp n =? 0).

(** The double nearest to [n] units, ties to the even significand. *)
Definition round (n : Z) : Z :=
  let u := ulp n in
  let q := n / u in
  let rem := n mod u in
  if 2 * rem <? u then q * u
  else if u <? 2 * rem then (q + 1) * u
  else if Z.even q then q * u else (q + 1) * u.

(** The double of the integer literal [k]. *)
Definition of_int (k : Z) : Z := round (k * one).

(** [a * k] for a double [a] and the double of an integer literal [k]. *)
Definition mul_int (a k : Z) : Z := round (a * k).

(** [a + b]. *)
Definition add (a b : Z) : Z := round (a + b).

(** [Math.floor(a)], an integer. *)
Definition floor (a : Z) : Z := a / one.

(** To and from the primitive floats of the proof assistant, to compare
    the model with the hardware arithmetic on given numbers. *)
Definition to_float (n : Z) : PrimFloat.float :=
  match n / ulp n with
  | Zpos m =>
      FloatOps.SF2Prim
        (SpecFloat.S754_finite false m (Z.log2 (ulp n) - 1074))
  | _ => PrimFloat.zero
  end.

Definition of_float (f : PrimFloat.float) : option Z :=
  match FloatOps.Prim2SF f with
  | SpecFloat.S754_zero _ => Some 0
  | SpecFloat.S754_finite false m e =>
      if 0 <=? e + 1074 then Some (Zpos m * 2 ^ (e + 1074)) else None
  | _ => None
  end.

End Binary64.

(** ** [src/lib/auth.ts]: the OTP generator *)

(** The inputs a request takes from its environment: [new Date()] in
    milliseconds, the double [Math.random()] returns (in units of
    [2^-1074]), the salt bcrypt draws, and the write of the next
    transaction the store fails, if any. *)
Record Env : Type := mkEnv {
  env_now : Z;
  env_random : Z;
  env_salt : string;
  env_fault : option nat
}.

(** [Math.floor(100000 + Math.random() * 900000).toString()], [r] being
    the value [Math.random()] returned. *)
Definition generateOTP (r : Z) : string :=
  Decimal.toString
    (Binary64.floor
       (Binary64.add (Binary64.of_int 100000) (Binary64.mul_int r 900000))).

(** The same expression on the primitive floats. *)
Definition generateOTP_float (r : PrimFloat.float) : PrimFloat.float :=
  PrimFloat.add (Binary64.to_float (Binary64.of_int 100000))
    (PrimFloat.mul r (Binary64.to_float (Binary64.of_int 900000))).

(** [expiry.setMinutes(expiry.getMinutes() + 10)] on [new Date()]: ten
    minutes, in milliseconds. *)
Definition getOTPExpiry (now : Z) : Z := now + 10 * 60 * 1000.

(** ** The libraries behind the code *)

(** [interface JwtPayload]. *)
Record JwtPayload : Type := mkJwtPayload {
  jwt_userId : Z;
  jwt_email : string;
  jwt_roleId : Z
}.

(** What [jwt.verify] of jsonwebtoken throws: [JsonWebTokenError] (a
    malformed token, a signature that does not match the key),
    [TokenExpiredError] (the clock is at or past [exp]) and
    [NotBeforeError]. *)
Inductive JwtError : Type :=
| JsonWebTokenError (message : string)
| TokenExpiredError
| NotBeforeError.

(** The library functions the handlers call.  [bcrypt_hash salt password
    cost] is [bcrypt.hash] with the salt it drew; [jwt_sign payload secret
    expiresIn now] and [jwt_verify token secret now] are [jwt.sign] and
    [jwt.verify] at clock [now]; [zod_email] is the format check of
    [z.string().email()]; [parseInt] returns [None] for [NaN]. *)
Class Externals : Type := mkExternals {
  bcrypt_hash : string -> string -> Z -> string;
  bcrypt_compare : string -> string -> bool;
  jwt_sign : JwtPayload -> string -> string -> Z -> string;
  jwt_verify : string -> string -> Z -> JwtError + JwtPayload;
  zod_email : string -> bool;
  parseInt : string -> option Z
}.

(** [process.env], read once when [lib/auth.ts] is loaded. *)
Record ProcessEnv : Type := mkProcessEnv {
  penv_JWT_SECRET : option string;
  penv_JWT_EXPIRES_IN : option string
}.

(** [process.env.X || fallback]: the empty string is falsy too. *)
Definition or_default (v : option string) (fallback : string) : string :=
  match v with
  | Some s => if String.eqb s "" then fallback else s
  | None => fallback
  end.

Definition JWT_SECRET (pe : ProcessEnv) : string :=
  or_default (penv_JWT_SECRET pe) "your-secret-key-change-in-production".

Definition JWT_EXPIRES_IN (pe : ProcessEnv) : string :=
  or_default (penv_JWT_EXPIRES_IN pe) "7d".

(** ** The store *)

(** Modelled from the spec: the Prisma schema is not among the sources.  The
    rows hold the columns the handlers below read or write (spec, section 3);
    their defaults on creation are [isUsed = false] for a reset record and
    [status = "pending"] for an application; ids are drawn from a sequence
    per table; an application is unique per [(seekerId, postId)], the
    compound key [seekerId_postId] the code looks it up by. *)
Record Role : Type := mkRole {
  role_id : Z;
  role_name : string
}.

Record User : Type := mkUser {
  user_id : Z;
  user_email : string;
  user_passwordHash : string;
  user_roleId : Z;
  user_isActive : bool
}.

Record PasswordReset : Type := mkPasswordReset {
  pr_id : Z;
  pr_userId : Z;
  pr_otpCode : string;
  pr_otpExpiry : Z;
  pr_isUsed : bool
}.

Record JobSeekerProfile : Type := mkJobSeekerProfile {
  jsp_id : Z;
  jsp_userId : Z
}.

Record Shop : Type := mkShop {
  shop_id : Z;
  shop_userId : Z
}.

Record ShopJobPost : Type := mkShopJobPost {
  post_id : Z;
  post_shopId : Z;
  post_status : string
}.

Record Application : Type := mkApplication {
  app_id : Z;
  app_seekerId : Z;
  app_postId : Z;
  app_status : string
}.

Record Store : Type := mkStore {
  roles : list Role;
  users : list User;
  passwordResets : list PasswordReset;
  jobSeekerProfiles : list JobSeekerProfile;
  shops : list Shop;
  shopJobPosts : list ShopJobPost;
  applications : list Application;
  seq_passwordReset : Z;
  seq_application : Z
}.

Definition set_users (f : list User -> list User) (s : Store) : Store :=
  mkStore (roles s) (f (users s)) (passwordResets s) (jobSeekerProfiles s)
    (shops s) (shopJobPosts s) (applications s)
    (seq_passwordReset s) (seq_application s).

Definition set_passwordResets
    (f : list PasswordReset -> list PasswordReset) (s : Store) : Store :=
  mkStore (roles s) (users s) (f (passwordResets s)) (jobSeekerProfiles s)
    (shops s) (shopJobPosts s) (applications s)
    (seq_passwordReset s) (seq_application s).

Definition set_shopJobPosts
    (f : list ShopJobPost -> list ShopJobPost) (s : Store) : Store :=
  mkStore (roles s) (users s) (passwordResets s) (jobSeekerProfiles s)
    (shops s) (f (shopJobPosts s)) (applications s)
    (seq_passwordReset s) (seq_application s).

Definition set_applications
    (f : list Application -> list Application) (s : Store) : Store :=
  mkStore (roles s) (users s) (passwordResets s) (jobSeekerProfiles s)
    (shops s) (shopJobPosts s) (f (applications s))
    (seq_passwordReset s) (seq_application s).

Definition bump_seq_passwordReset (s : Store) : Store :=
  mkStore (roles s) (users s) (passwordResets s) (jobSeekerProfiles s)
    (shops s) (shopJobPosts s) (applications s)
    (seq_passwordReset s + 1) (seq_application s).

Definition bump_seq_application (s : Store) : Store :=
  mkStore (roles s) (users s) (passwordResets s) (jobSeekerProfiles s)
    (shops s) (shopJobPosts s) (applications s)
    (seq_passwordReset s) (seq_application s + 1).

(** Rows as the JSON the responses carry. *)
Definition application_json (a : Application) : Json :=
  JObj [("id", JNum (app_id a)); ("seekerId", JNum (app_seekerId a));
        ("postId", JNum (app_postId a)); ("status", JStr (app_status a))].

Definition job_json (j : ShopJobPost) : Json :=
  JObj [("id", JNum (post_id j)); ("shopId", JNum (post_shopId j));
        ("status", JStr (post_status j))].

(** ** Handlers: a state monad with early exit *)

(** What [catch (error)] can receive: a [z.ZodError] with the paths of its
    issues, or any other error. *)
Inductive Exn : Type :=
| ZodError (issues : list string)
| RuntimeError (message : string).

(** Why the body of a handler stopped before its last statement. *)
Inductive Exit : Type :=
| Sent (r : Response)
| Thrown (e : Exn).

Definition Handler (A : Type) : Type := Store -> (Exit + A) * Store.

Definition ret {A : Type} (a : A) : Handler A := fun s => (inr a, s).

Definition bind {A B : Type} (m : Handler A) (k : A -> Handler B)
  : Handler B :=
  fun s =>
    match m s with
    | (inr a, s') => k a s'
    | (inl e, s') => (inl e, s')
    end.

Declare Scope handler_scope.
Delimit Scope handler_scope with handler.
Notation "x <- m ;; k" := (bind m (fun x => k))
  (at level 100, m at next level, right associativity) : handler_scope.
Notation "m ;; k" := (bind m (fun _ => k))
  (at level 100, right associativity) : handler_scope.
Local Open Scope handler_scope.

(** [return res.status(code).json(body)]. *)
Definition respond {A : Type} (code : Z) (body : Json) : Handler A :=
  fun s => (inl (Sent (mkResponse code body)), s).

Definition throw {A : Type} (e : Exn) : Handler A :=
  fun s => (inl (Thrown e), s).

(** A read of the store. *)
Definition query {A : Type} (f : Store -> A) : Handler A :=
  fun s => (inr (f s), s).

(** A write of the store that fails ([None]) or goes through. *)
Definition write (f : Store -> option Store) (err : string) : Handler unit :=
  fun s =>
    match f s with
    | Some s' => (inr tt, s')
    | None => (inl (Thrown (RuntimeError err)), s)
    end.

(** [if (cond) { return res.status(code).json(body); }]. *)
Definition exit_if (cond : bool) (code : Z) (body : Json) : Handler unit :=
  if cond then respond code body else ret tt.

(** [const x = ...; if (!x) { return res.status(code).json(body); }]. *)
Definition or_exit {A : Type} (x : option A) (code : Z) (body : Json)
  : Handler A :=
  match x with
  | Some a => ret a
  | None => respond code body
  end.

(** [try { body } catch (error) { on_error }]: the response a handler
    sends, and the store it leaves. *)
Definition try_catch (body : Handler Response) (on_error : Exn -> Response)
    (s : Store) : Response * Store :=
  match body s with
  | (inr r, s') => (r, s')
  | (inl (Sent r), s') => (r, s')
  | (inl (Thrown e), s') => (on_error e, s')
  end.

(** The common [catch] block: a [ZodError] is a 400 with its issues, any
    other error a 500 with the handler's own message. *)
Definition catch_zod (failure : string) (e : Exn) : Response :=
  match e with
  | ZodError issues =>
      mkResponse 400
        (JObj [("error", JStr "Validation error");
               ("details", JArr (map JStr issues))])
  | RuntimeError _ => mkResponse 500 (json_error failure)
  end.

(** The [catch] block of a handler that does not tell a [ZodError] apart. *)
Definition catch_all (failure : string) (e : Exn) : Response :=
  mkResponse 500 (json_error failure).

(** ** The Prisma client *)

Module prisma.

(** [update({ where: { id }, data })] on a table: the row with that id is
    rewritten (each of them, should a table repeat an id); no such row is
    an error (P2025). *)
Definition update_where {R : Type} (key : R -> Z) (id : Z) (f : R -> R)
    (rows : list R) : option (list R) :=
  if existsb (fun r => key r =? id) rows
  then Some (map (fun r => if key r =? id then f r else r) rows)
  else None.

(** [delete({ where: { id } })]. *)
Definition delete_where {R : Type} (key : R -> Z) (id : Z) (rows : list R)
  : option (list R) :=
  if existsb (fun r => key r =? id) rows
  then Some (filter (fun r => negb (key r =? id)) rows)
  else None.

Definition on_users (f : list User -> option (list User)) (s : Store)
  : option Store :=
  option_map (fun l => set_users (fun _ => l) s) (f (users s)).

Definition on_passwordResets
    (f : list PasswordReset -> option (list PasswordReset)) (s : Store)
  : option Store :=
  option_map (fun l => set_passwordResets (fun _ => l) s)
    (f (passwordResets s)).

Definition on_shopJobPosts
    (f : list ShopJobPost -> option (list ShopJobPost)) (s : Store)
  : option Store :=
  option_map (fun l => set_shopJobPosts (fun _ => l) s) (f (shopJobPosts s)).

Definition on_applications
    (f : list Application -> option (list Application)) (s : Store)
  : option Store :=
  option_map (fun l => set_applications (fun _ => l) s) (f (applications s)).

(** [prisma.user.findUnique({ where: { email } })]. *)
Definition user_findUnique_email (email : string) (s : Store) : option User :=
  find (fun u => String.eqb (user_email u) email) (users s).

(** [user.role] of [include: { role: true }]. *)
Definition user_role (u : User) (s : Store) : option Role :=
  find (fun r => role_id r =? user_roleId u) (roles s).

(** [prisma.user.update({ where: { id }, data: { passwordHash } })]. *)
Definition user_update_passwordHash (id : Z) (passwordHash : string)
    (s : Store) : option Store :=
  on_users
    (update_where user_id id
       (fun u => mkUser (user_id u) (user_email u) passwordHash
                   (user_roleId u) (user_isActive u))) s.

(** The [where] clause of the reset handler:
    [{ userId, otpCode, isUsed: false, otpExpiry: { gte: now } }]. *)
Definition reset_matches (userId : Z) (otpCode : string) (now : Z)
    (r : PasswordReset) : bool :=
  (pr_userId r =? userId) && String.eqb (pr_otpCode r) otpCode
  && negb (pr_isUsed r) && (now <=? pr_otpExpiry r).

(** [prisma.passwordReset.findFirst({ where })]. *)
Definition passwordReset_findFirst (userId : Z) (otpCode : string) (now : Z)
    (s : Store) : option PasswordReset :=
  find (reset_matches userId otpCode now) (passwordResets s).

(** [prisma.passwordReset.create({ data: { userId, otpCode, otpExpiry } })]. *)
Definition passwordReset_create (userId : Z) (otpCode : string)
    (otpExpiry : Z) (s : Store) : PasswordReset * Store :=
  let r := mkPasswordReset (seq_passwordReset s) userId otpCode otpExpiry
             false in
  (r, bump_seq_passwordReset
        (set_passwordResets (fun l => (l ++ [r])%list) s)).

(** [prisma.passwordReset.update({ where: { id }, data: { isUsed: true } })]. *)
Definition passwordReset_update_isUsed (id : Z) (s : Store) : option Store :=
  on_passwordResets
    (update_where pr_id id
       (fun r => mkPasswordReset (pr_id r) (pr_userId r) (pr_otpCode r)
                   (pr_otpExpiry r) true)) s.

(** [prisma.jobSeekerProfile.findUnique({ where: { userId } })]. *)
Definition jobSeekerProfile_findUnique_userId (userId : Z) (s : Store)
  : option JobSeekerProfile :=
  find (fun p => jsp_userId p =? userId) (jobSeekerProfiles s).

(** [prisma.shop.findUnique({ where: { userId } })]. *)
Definition shop_findUnique_userId (userId : Z) (s : Store) : option Shop :=
  find (fun sh => shop_userId sh =? userId) (shops s).

(** [prisma.shopJobPost.findUnique({ where: { id } })]. *)
Definition shopJobPost_findUnique (id : Z) (s : Store) : option ShopJobPost :=
  find (fun j => post_id j =? id) (shopJobPosts s).

(** [prisma.shopJobPost.findFirst({ where: { id, shopId } })]. *)
Definition shopJobPost_findFirst (id shopId : Z) (s : Store)
  : option ShopJobPost :=
  find (fun j => (post_id j =? id) && (post_shopId j =? shopId))
    (shopJobPosts s).

(** [prisma.shopJobPost.update({ where: { id }, data: { status } })]. *)
Definition shopJobPost_update_status (id : Z) (status : string) (s : Store)
  : option Store :=
  on_shopJobPosts
    (update_where post_id id
       (fun j => mkShopJobPost (post_id j) (post_shopId j) status)) s.

(** [prisma.application.findUnique({ where: { seekerId_postId } })]. *)
Definition application_findUnique_seekerId_postId (seekerId postId : Z)
    (s : Store) : option Application :=
  find (fun a => (app_seekerId a =? seekerId) && (app_postId a =? postId))
    (applications s).

(** [prisma.application.findUnique({ where: { id } })]. *)
Definition application_findUnique (id : Z) (s : Store) : option Application :=
  find (fun a => app_id a =? id) (applications s).

(** [prisma.application.findFirst({ where: { id, seekerId } })]. *)
Definition application_findFirst (id seekerId : Z) (s : Store)
  : option Application :=
  find (fun a => (app_id a =? id) && (app_seekerId a =? seekerId))
    (applications s).

(** [prisma.application.create({ data: { seekerId, postId } })]: refused
    when the pair is taken. *)
Definition application_create (seekerId postId : Z) (s : Store)
  : option (Application * Store) :=
  match application_findUnique_seekerId_postId seekerId postId s with
  | Some _ => None
  | None =>
      let a := mkApplication (seq_application s) seekerId postId "pending" in
      Some (a, bump_seq_application
                 (set_applications (fun l => (l ++ [a])%list) s))
  end.

(** [prisma.application.update({ where: { id }, data: { status } })]. *)
Definition application_update_status (id : Z) (status : string) (s : Store)
  : option Store :=
  on_applications
    (update_where app_id id
       (fun a => mkApplication (app_id a) (app_seekerId a) (app_postId a)
                   status)) s.

(** [prisma.application.delete({ where: { id } })]. *)
Definition application_delete (id : Z) (s : Store) : option Store :=
  on_applications (delete_where app_id id) s.

(** The store fails the write numbered [i] of a transaction. *)
Definition fault_at (fault : option nat) (i : nat) : bool :=
  match fault with
  | Some k => Nat.eqb k i
  | None => false
  end.

(** [prisma.$transaction([w1, w2, ...])]: the writes run in order on a
    working copy; when one of them fails, or the store fails at one of them,
    nothing is committed. *)
Fixpoint run_writes (fault : option nat) (i : nat)
    (writes : list (Store -> option Store)) (s : Store) : option Store :=
  match writes with
  | [] => Some s
  | w :: rest =>
      if fault_at fault i then None
      else match w s with
           | Some s' => run_writes fault (S i) rest s'
           | None => None
           end
  end.

Definition transaction (fault : option nat)
    (writes : list (Store -> option Store)) : Handler unit :=
  write (run_writes fault 0 writes) "Transaction failed".

End prisma.

(** ** Requests and middleware: [src/middleware/auth.middleware.ts] *)

(** A JavaScript [Error] with its message. *)
Inductive Error : Type :=
| mkError (message : string).

Record Request : Type := mkRequest {
  req_authorization : option string;
  req_params_id : string;
  req_body : Json;
  req_user : option JwtPayload
}.

Definition with_user (req : Request) (u : JwtPayload) : Request :=
  mkRequest (req_authorization req) (req_params_id req) (req_body req)
    (Some u).

(** A middleware answers the request itself or passes it on ([next()]). *)
Definition Middleware : Type := Request -> Response + Request.

Definition requireRole (allowedRoleIds : list Z) : Middleware :=
  fun req =>
    match req_user req with
    | None => inl (mkResponse 401 (json_error "Not authenticated"))
    | Some user =>
        if negb (existsb (Z.eqb (jwt_roleId user)) allowedRoleIds)
        then inl (mkResponse 403 (json_error "Insufficient permissions"))
        else inr req
    end.

Module ROLES.
Definition JOB_SEEKER : Z := 1.
Definition SHOP_OWNER : Z := 2.
End ROLES.

Section Server.

Context {ext : Externals}.

(** ** [src/lib/auth.ts] *)

(** [bcrypt.hash(password, 10)]. *)
Definition hashPassword (salt password : string) : string :=
  bcrypt_hash salt password 10.

Definition comparePassword (password hash : string) : bool :=
  bcrypt_compare password hash.

Definition generateToken (pe : ProcessEnv) (now : Z) (payload : JwtPayload)
  : string :=
  jwt_sign payload (JWT_SECRET pe) (JWT_EXPIRES_IN pe) now.

(** [try { return jwt.verify(token, JWT_SECRET) } catch (error)
    { throw new Error("Invalid or expired token") }]. *)
Definition verifyToken (pe : ProcessEnv) (now : Z) (token : string)
  : Error + JwtPayload :=
  match jwt_verify token (JWT_SECRET pe) now with
  | inr payload => inr payload
  | inl _ => inl (mkError "Invalid or expired token")
  end.

(** [authenticate] of [src/middleware/auth.middleware.ts]. *)
Definition authenticate (pe : ProcessEnv) (now : Z) : Middleware :=
  fun req =>
    match req_authorization req with
    | None => inl (mkResponse 401 (json_error "No token provided"))
    | Some authHeader =>
        if negb (String.prefix "Bearer " authHeader)
        then inl (mkResponse 401 (json_error "No token provided"))
        else
          let token :=
            String.substring 7 (String.length authHeader - 7) authHeader in
          match verifyToken pe now token with
          | inr decoded => inr (with_user req decoded)
          | inl _ =>
              inl (mkResponse 401 (json_error "Invalid or expired token"))
          end
    end.


(** A route runs its middleware in order, then its handler. *)
Fixpoint route (chain : list Middleware)
    (handler : Request -> Store -> Response * Store)
    (req : Request) (s : Store) : Response * Store :=
  match chain with
  | [] => handler req s
  | m :: rest =>
      match m req with
      | inl r => (r, s)
      | inr req' => route rest handler req' s
      end
  end.

(** [req.user!.userId]: the chain of every protected route has attached
    the payload; without it the access throws. *)
Definition req_userId (req : Request) : Handler Z :=
  match req_user req with
  | Some u => ret (jwt_userId u)
  | None => throw (RuntimeError "Cannot read properties of undefined")
  end.

(** ** Validation schemas (zod) *)

(** [z.string()] with one refinement: the string, or nothing when the value
    is not a string or fails the refinement. *)
Definition z_string (check : string -> bool) (v : Json) : option string :=
  match v with
  | JStr s => if check s then Some s else None
  | _ => None
  end.

(** [z.number().int()]. *)
Definition z_int (v : Json) : option Z :=
  match v with
  | JNum n => Some n
  | _ => None
  end.

(** [z.enum([...])]. *)
Definition z_enum (values : list string) (v : Json) : option string :=
  z_string (fun s => existsb (String.eqb s) values) v.

(** The issue a field contributes to a [ZodError]: its path when it did not
    parse. *)
Definition issue {A : Type} (path : string) (parsed : option A)
  : list string :=
  match parsed with
  | Some _ => []
  | None => [path]
  end.

Definition is_object (body : Json) : bool :=
  match body with
  | JObj _ => true
  | _ => false
  end.

Record LoginData : Type := mkLoginData {
  login_email : string;
  login_password : string
}.

Record ResetPasswordData : Type := mkResetPasswordData {
  reset_email : string;
  reset_otpCode : string;
  reset_newPassword : string
}.

(** [schema.parse(req.body)] in a handler: the parsed data, or the
    [ZodError] thrown. *)
Definition parse {A : Type} (r : Exn + A) : Handler A :=
  match r with
  | inr a => ret a
  | inl e => throw e
  end.

(** [loginSchema.parse(req.body)]. *)
Definition loginSchema (body : Json) : Exn + LoginData :=
  if negb (is_object body) then inl (ZodError [""]) else
  let email := z_string zod_email (get_field "email" body) in
  let password := z_string (fun _ => true) (get_field "password" body) in
  match email, password with
  | Some e, Some p => inr (mkLoginData e p)
  | _, _ =>
      inl (ZodError (issue "email" email ++ issue "password" password)%list)
  end.

(** [forgotPasswordSchema.parse(req.body)]. *)
Definition forgotPasswordSchema (body : Json) : Exn + string :=
  if negb (is_object body) then inl (ZodError [""]) else
  match z_string zod_email (get_field "email" body) with
  | Some e => inr e
  | None => inl (ZodError ["email"])
  end.

(** [resetPasswordSchema.parse(req.body)]: [otpCode] of length 6,
    [newPassword] of length at least 6. *)
Definition resetPasswordSchema (body : Json) : Exn + ResetPasswordData :=
  if negb (is_object body) then inl (ZodError [""]) else
  let email := z_string zod_email (get_field "email" body) in
  let otpCode :=
    z_string (fun s => Nat.eqb (String.length s) 6)
      (get_field "otpCode" body) in
  let newPassword :=
    z_string (fun s => Nat.leb 6 (String.length s))
      (get_field "newPassword" body) in
  match email, otpCode, newPassword with
  | Some e, Some c, Some p => inr (mkResetPasswordData e c p)
  | _, _, _ =>
      inl (ZodError (issue "email" email ++ issue "otpCode" otpCode
                         ++ issue "newPassword" newPassword)%list)
  end.

(** [createApplicationSchema.parse(req.body)]. *)
Definition createApplicationSchema (body : Json) : Exn + Z :=
  if negb (is_object body) then inl (ZodError [""]) else
  match z_int (get_field "postId" body) with
  | Some n => inr n
  | None => inl (ZodError ["postId"])
  end.

(** [updateStatusSchema.parse(req.body)]. *)
Definition updateStatusSchema (body : Json) : Exn + string :=
  if negb (is_object body) then inl (ZodError [""]) else
  match z_enum ["pending"; "accepted"; "rejected"; "withdrawn"]
          (get_field "status" body) with
  | Some st => inr st
  | None => inl (ZodError ["status"])
  end.

(** A [create] of the store, and an [update] that returns the row it
    rewrote. *)
Definition create {A : Type} (f : Store -> option (A * Store)) (err : string)
  : Handler A :=
  fun s =>
    match f s with
    | Some (a, s') => (inr a, s')
    | None => (inl (Thrown (RuntimeError err)), s)
    end.

Definition update {A : Type} (f : Store -> option Store)
    (row : Store -> option A) (err : string) : Handler A :=
  write f err ;;
  r <- query row ;;
  match r with
  | Some a => ret a
  | None => throw (RuntimeError err)
  end.

(** An id that [parseInt] turned into [NaN] makes the query that takes it
    throw. *)
Definition valid_id (id : option Z) : Handler Z :=
  match id with
  | Some n => ret n
  | None => throw (RuntimeError "Invalid value provided")
  end.

(** [values.includes(v)] followed by the use of [v] as a string. *)
Definition includes (values : list string) (v : Json) : option string :=
  z_enum values v.

Definition is_some {A : Type} (x : option A) : bool :=
  match x with
  | Some _ => true
  | None => false
  end.

(** ** [src/routes/auth.routes.ts] *)

(** [POST /api/auth/login]. *)
Definition post_login (pe : ProcessEnv) (env : Env) (req : Request)
  : Store -> Response * Store :=
  try_catch
    (data <- parse (loginSchema (req_body req)) ;;
     found <- query (prisma.user_findUnique_email (login_email data)) ;;
     user <- or_exit found 401 (json_error "Invalid email or password") ;;
     exit_if (negb (user_isActive user)) 403
       (json_error "Account is deactivated") ;;
     let isPasswordValid :=
       comparePassword (login_password data) (user_passwordHash user) in
     exit_if (negb isPasswordValid) 401
       (json_error "Invalid email or password") ;;
     let token :=
       generateToken pe (env_now env)
         (mkJwtPayload (user_id user) (user_email user) (user_roleId user)) in
     role <- query (prisma.user_role user) ;;
     match role with
     | None => throw (RuntimeError "Cannot read properties of null")
     | Some role =>
         ret (mkResponse 200
                (JObj [("message", JStr "Login successful");
                       ("user",
                        JObj [("id", JNum (user_id user));
                              ("email", JStr (user_email user));
                              ("roleId", JNum (user_roleId user));
                              ("roleName", JStr (role_name role))]);
                       ("token", JStr token)]))
     end)
    (catch_zod "Login failed").

(** [POST /api/auth/forgot-password]. *)
Definition post_forgot_password (env : Env) (req : Request)
  : Store -> Response * Store :=
  try_catch
    (email <- parse (forgotPasswordSchema (req_body req)) ;;
     found <- query (prisma.user_findUnique_email email) ;;
     user <- or_exit found 200
               (json_message "If email exists, OTP has been sent") ;;
     let otpCode := generateOTP (env_random env) in
     let otpExpiry := getOTPExpiry (env_now env) in
     create (fun s => Some (prisma.passwordReset_create (user_id user)
                              otpCode otpExpiry s))
       "passwordReset.create" ;;
     ret (mkResponse 200
            (JObj [("message", JStr "OTP sent to email");
                   ("otpCode", JStr otpCode)])))
    (catch_zod "Failed to process request").

(** [POST /api/auth/reset-password]. *)
Definition post_reset_password (env : Env) (req : Request)
  : Store -> Response * Store :=
  try_catch
    (data <- parse (resetPasswordSchema (req_body req)) ;;
     found <- query (prisma.user_findUnique_email (reset_email data)) ;;
     user <- or_exit found 400 (json_error "Invalid request") ;;
     found <-
       query (prisma.passwordReset_findFirst (user_id user)
                (reset_otpCode data) (env_now env)) ;;
     passwordReset <- or_exit found 400 (json_error "Invalid or expired OTP") ;;
     let passwordHash :=
       hashPassword (env_salt env) (reset_newPassword data) in
     prisma.transaction (env_fault env)
       [prisma.user_update_passwordHash (user_id user) passwordHash;
        prisma.passwordReset_update_isUsed (pr_id passwordReset)] ;;
     ret (mkResponse 200 (json_message "Password reset successful")))
    (catch_zod "Failed to reset password").

(** ** [src/routes/application.routes.ts] *)

(** [POST /api/applications], job seekers only. *)
Definition create_application (req : Request) : Store -> Response * Store :=
  try_catch
    (postId <- parse (createApplicationSchema (req_body req)) ;;
     userId <- req_userId req ;;
     found <- query (prisma.jobSeekerProfile_findUnique_userId userId) ;;
     profile <-
       or_exit found 404
         (json_error
            "Job seeker profile not found. Please complete your profile first.") ;;
     found <- query (prisma.shopJobPost_findUnique postId) ;;
     job <- or_exit found 404 (json_error "Job not found") ;;
     exit_if (negb (String.eqb (post_status job) "open")) 400
       (json_error "Job is no longer accepting applications") ;;
     existingApplication <-
       query (prisma.application_findUnique_seekerId_postId (jsp_id profile)
                postId) ;;
     exit_if (is_some existingApplication) 400
       (json_error "You have already applied to this job") ;;
     application <-
       create (prisma.application_create (jsp_id profile) postId)
         "Unique constraint failed" ;;
     ret (mkResponse 201
            (JObj [("message", JStr "Application submitted successfully");
                   ("application", application_json application)])))
    (catch_zod "Failed to submit application").

Definition post_applications (pe : ProcessEnv) (env : Env)
  : Request -> Store -> Response * Store :=
  route [authenticate pe (env_now env); requireRole [ROLES.JOB_SEEKER]]
    create_application.

(** [PATCH /api/applications/:id/status], shop owners only. *)
Definition update_application_status (req : Request)
  : Store -> Response * Store :=
  try_catch
    (let id := parseInt (req_params_id req) in
     status <- parse (updateStatusSchema (req_body req)) ;;
     userId <- req_userId req ;;
     found <- query (prisma.shop_findUnique_userId userId) ;;
     shop <- or_exit found 404 (json_error "Shop profile not found") ;;
     id <- valid_id id ;;
     found <- query (prisma.application_findUnique id) ;;
     application <- or_exit found 404 (json_error "Application not found") ;;
     post <- query (prisma.shopJobPost_findUnique (app_postId application)) ;;
     match post with
     | None => throw (RuntimeError "Cannot read properties of null")
     | Some post =>
         exit_if (negb (post_shopId post =? shop_id shop)) 403
           (json_error "Unauthorized to update this application") ;;
         updatedApplication <-
           update (prisma.application_update_status id status)
             (prisma.application_findUnique id) "Record to update not found" ;;
         ret (mkResponse 200
                (JObj [("message", JStr "Application status updated");
                       ("application", application_json updatedApplication)]))
     end)
    (catch_zod "Failed to update application status").

Definition patch_application_status (pe : ProcessEnv) (env : Env)
  : Request -> Store -> Response * Store :=
  route [authenticate pe (env_now env); requireRole [ROLES.SHOP_OWNER]]
    update_application_status.

(** [DELETE /api/applications/:id], job seekers only: withdrawal. *)
Definition withdraw_application (req : Request) : Store -> Response * Store :=
  try_catch
    (let id := parseInt (req_params_id req) in
     userId <- req_userId req ;;
     found <- query (prisma.jobSeekerProfile_findUnique_userId userId) ;;
     profile <- or_exit found 404 (json_error "Job seeker profile not found") ;;
     id <- valid_id id ;;
     found <- query (prisma.application_findFirst id (jsp_id profile)) ;;
     _ <- or_exit found 404
            (json_error "Application not found or unauthorized") ;;
     write (prisma.application_delete id) "Record to delete does not exist" ;;
     ret (mkResponse 200 (json_message "Application withdrawn successfully")))
    (catch_all "Failed to withdraw application").

Definition delete_application (pe : ProcessEnv) (env : Env)
  : Request -> Store -> Response * Store :=
  route [authenticate pe (env_now env); requireRole [ROLES.JOB_SEEKER]]
    withdraw_application.

(** ** The job routes, in [src/routes/job-seeker.routes.ts] *)

(** [PATCH /api/jobs/:id/status], shop owners only. *)
Definition update_job_status (req : Request) : Store -> Response * Store :=
  try_catch
    (let id := parseInt (req_params_id req) in
     let status := get_field "status" (req_body req) in
     status <-
       or_exit (includes ["open"; "closed"; "completed"] status) 400
         (json_error "Invalid status") ;;
     userId <- req_userId req ;;
     found <- query (prisma.shop_findUnique_userId userId) ;;
     shop <- or_exit found 404 (json_error "Shop profile not found") ;;
     id <- valid_id id ;;
     found <- query (prisma.shopJobPost_findFirst id (shop_id shop)) ;;
     _ <- or_exit found 404 (json_error "Job not found or unauthorized") ;;
     updatedJob <-
       update (prisma.shopJobPost_update_status id status)
         (prisma.shopJobPost_findUnique id) "Record to update not found" ;;
     ret (mkResponse 200
            (JObj [("message", JStr "Job status updated");
                   ("job", job_json updatedJob)])))
    (catch_all "Failed to update job status").

Definition patch_job_status (pe : ProcessEnv) (env : Env)
  : Request -> Store -> Response * Store :=
  route [authenticate pe (env_now env); requireRole [ROLES.SHOP_OWNER]]
    update_job_status.

End Server.


(** ** The responses the properties name *)

Section Responses.

Context {ext : Externals}.

(** [POST /api/auth/login]: the rejection of an unknown e-mail and of a
    wrong password, and the rejection of a deactivated account. *)
Definition invalid_credentials : Response :=
  mkResponse 401 (json_error "Invalid email or password").

Definition account_deactivated : Response :=
  mkResponse 403 (json_error "Account is deactivated").

(** The libraries with another password comparison in place of
    [bcrypt.compare]. *)
Definition with_compare (compare : string -> string -> bool) : Externals :=
  mkExternals bcrypt_hash compare jwt_sign jwt_verify zod_email parseInt.

(** [POST /api/auth/forgot-password]: the answer to an unknown e-mail, and
    the answer that carries the code. *)
Definition otp_maybe_sent : Response :=
  mkResponse 200 (json_message "If email exists, OTP has been sent").

Definition otp_sent (otpCode : string) : Response :=
  mkResponse 200
    (JObj [("message", JStr "OTP sent to email"); ("otpCode", JStr otpCode)]).

(** [POST /api/auth/reset-password]. *)
Definition invalid_request : Response :=
  mkResponse 400 (json_error "Invalid request").

Definition invalid_or_expired_otp : Response :=
  mkResponse 400 (json_error "Invalid or expired OTP").

Definition password_reset_successful : Response :=
  mkResponse 200 (json_message "Password reset successful").

Definition failed_to_reset_password : Response :=
  mkResponse 500 (json_error "Failed to reset password").

End Responses.

(** The steps of a handler body, unfolded one at a time. *)
Ltac unfold_handler :=
  unfold try_catch, parse, update, create, write, bind, query, or_exit, exit_if,
    valid_id, req_userId, respond, throw, ret.

(** ** What a reset leaves in the store *)

(** The identity of [email] has the digest [hash]. *)
Definition password_is (email hash : string) (s : Store) : Prop :=
  exists u,
    prisma.user_findUnique_email email s = Some u
    /\ user_passwordHash u = hash.

(** The reset record [id] is in the store, marked used. *)
Definition reset_used (id : Z) (s : Store) : Prop :=
  (exists r, In r (passwordResets s) /\ pr_id r = id)
  /\ (forall r, In r (passwordResets s) -> pr_id r = id -> pr_isUsed r = true).


(** The store after both writes of a reset: the digest of the identity
    [userId] replaced, the reset record [resetId] marked used. *)
Definition reset_committed (userId : Z) (passwordHash : string) (resetId : Z)
    (s : Store) : Store :=
  set_passwordResets
    (fun _ =>
       map (fun r => if pr_id r =? resetId
                     then mkPasswordReset (pr_id r) (pr_userId r)
                            (pr_otpCode r) (pr_otpExpiry r) true
                     else r) (passwordResets s))
    (set_users
       (fun _ =>
          map (fun u => if user_id u =? userId
                        then mkUser (user_id u) (user_email u) passwordHash
                               (user_roleId u) (user_isActive u)
                        else u) (users s)) s).

(** The store fails one of the two writes of the reset transaction. *)
Definition reset_fails (env : Env) : bool :=
  prisma.fault_at (env_fault env) 0 || prisma.fault_at (env_fault env) 1.

(** ** The creation preconditions, as the specification lists them *)

Inductive CreationError : Type :=
| ProfileRequired
| NotFound
| JobClosed
| DuplicateApplication.

(** The response of each failed precondition of [POST /api/applications]. *)
Definition creation_error_response (e : CreationError) : Response :=
  match e with
  | ProfileRequired =>
      mkResponse 404
        (json_error
           "Job seeker profile not found. Please complete your profile first.")
  | NotFound => mkResponse 404 (json_error "Job not found")
  | JobClosed =>
      mkResponse 400 (json_error "Job is no longer accepting applications")
  | DuplicateApplication =>
      mkResponse 400 (json_error "You have already applied to this job")
  end.

(** The specification's list: (1) the caller has a seeker profile, (2) the
    posting exists, (3) the posting is open, (4) the seeker has no
    application to the posting; the first that fails, if any. *)
Definition spec_first_failure (userId postId : Z) (s : Store)
  : option CreationError :=
  match find (fun p => jsp_userId p =? userId) (jobSeekerProfiles s) with
  | None => Some ProfileRequired
  | Some profile =>
      match find (fun j => post_id j =? postId) (shopJobPosts s) with
      | None => Some NotFound
      | Some job =>
          if negb (String.eqb (post_status job) "open") then Some JobClosed
          else if existsb
                    (fun a => (app_seekerId a =? jsp_id profile)
                              && (app_postId a =? postId)) (applications s)
          then Some DuplicateApplication
          else None
      end
  end.

(** ** The responses of the status routes *)


Definition job_not_found_or_unauthorized : Response :=
  mkResponse 404 (json_error "Job not found or unauthorized").

(** [PATCH /api/applications/:id/status]. *)
Definition application_not_found : Response :=
  mkResponse 404 (json_error "Application not found").

Definition application_unauthorized : Response :=
  mkResponse 403 (json_error "Unauthorized to update this application").

(** The statuses each route accepts. *)
Definition job_statuses : list string := ["open"; "closed"; "completed"].

Definition application_statuses : list string :=
  ["pending"; "accepted"; "rejected"; "withdrawn"].

(** [{ status: "..." }]. *)
Definition status_body (status : string) : Json :=
  JObj [("status", JStr status)].

(** [verifyToken] fails: the one error it throws, and the answer of
    [authenticate] to it. *)
Definition invalid_or_expired_token : Error :=
  mkError "Invalid or expired token".

Definition unauthenticated : Response :=
  mkResponse 401 (json_error "Invalid or expired token").

(** ** The transitions the specification permits *)


(** Applications, by the shop: pending to accepted, pending to rejected. *)
Definition spec_application_transition (from to : string) : bool :=
  (String.eqb from "pending" && String.eqb to "accepted")
  || (String.eqb from "pending" && String.eqb to "rejected").

(** ** A concrete instance of the libraries, and a small store

    Used to run the handlers on explicit requests.  The token of the
    instance is the text [key.exp.userId.roleId.email]: its first field
    stands for the signature (it verifies when it is the signing key), its
    second is the expiry in seconds. *)

Module Example.

(** The text before the first [sep], and the text after it, if any. *)
Fixpoint split_at (sep : ascii) (s : string) : string * option string :=
  match s with
  | EmptyString => (EmptyString, None)
  | String c rest =>
      if Ascii.eqb c sep then (EmptyString, Some rest)
      else let (a, b) := split_at sep rest in (String c a, b)
  end.

Definition number (s : string) : option Z :=
  match s with
  | EmptyString => None
  | _ => if Decimal.all_digits s then Some (Decimal.value s) else None
  end.

Fixpoint contains (c : ascii) (s : string) : bool :=
  match s with
  | EmptyString => false
  | String d rest => Ascii.eqb c d || contains c rest
  end.

Definition hash (salt password : string) (cost : Z) : string :=
  salt ++ ":" ++ password.

Definition compare (password digest : string) : bool :=
  match split_at ":" digest with
  | (_, Some p) => String.eqb p password
  | (_, None) => false
  end.

Definition sign (payload : JwtPayload) (secret expiresIn : string) (now : Z)
  : string :=
  secret ++ "." ++ Decimal.toString (now / 1000 + 604800)
  ++ "." ++ Decimal.toString (jwt_userId payload)
  ++ "." ++ Decimal.toString (jwt_roleId payload)
  ++ "." ++ jwt_email payload.

Definition malformed : JwtError + JwtPayload :=
  inl (JsonWebTokenError "jwt malformed").

Definition verify (token secret : string) (now : Z) : JwtError + JwtPayload :=
  match split_at "." token with
  | (sig, Some rest1) =>
      match split_at "." rest1 with
      | (exp, Some rest2) =>
          match split_at "." rest2 with
          | (userId, Some rest3) =>
              match split_at "." rest3 with
              | (roleId, Some email) =>
                  match number exp, number userId, number roleId with
                  | Some e, Some u, Some r =>
                      if negb (String.eqb sig secret)
                      then inl (JsonWebTokenError "invalid signature")
                      else if e <=? now / 1000 then inl TokenExpiredError
                      else inr (mkJwtPayload u email r)
                  | _, _, _ => malformed
                  end
              | _ => malformed
              end
          | _ => malformed
          end
      | _ => malformed
      end
  | _ => malformed
  end.

#[export] Instance externals : Externals := {|
  bcrypt_hash := hash;
  bcrypt_compare := compare;
  jwt_sign := sign;
  jwt_verify := verify;
  zod_email := contains "@";
  parseInt := number
|}.

Definition pe : ProcessEnv := mkProcessEnv (Some "k") None.

(** The clock at 1000 s, the draw 0.5, no store fault. *)
Definition env : Env := mkEnv 1000000 (2 ^ 1073) "salt" None.

Definition store : Store := {|
  roles := [mkRole 1 "job_seeker"; mkRole 2 "shop_owner"];
  users :=
    [mkUser 1 "a@x.com" "s1:secret1" 1 true;
     mkUser 2 "shop1@x.com" "s2:secret2" 2 true;
     mkUser 3 "shop2@x.com" "s3:secret3" 2 true;
     mkUser 4 "gone@x.com" "s4:secret4" 1 false;
     mkUser 5 "new@x.com" "s5:secret5" 1 true];
  passwordResets :=
    [mkPasswordReset 1 1 "123456" 1600000 false;
     mkPasswordReset 2 1 "222222" 900000 false;
     mkPasswordReset 3 1 "333333" 1600000 true];
  jobSeekerProfiles := [mkJobSeekerProfile 1 1; mkJobSeekerProfile 2 4];
  shops := [mkShop 1 2; mkShop 2 3];
  shopJobPosts :=
    [mkShopJobPost 1 1 "open"; mkShopJobPost 2 1 "closed";
     mkShopJobPost 3 2 "open"; mkShopJobPost 4 1 "completed"];
  applications :=
    [mkApplication 1 1 3 "accepted"; mkApplication 2 2 1 "pending"];
  seq_passwordReset := 4;
  seq_application := 3
|}.

(** Tokens that verify at [env] under the key of [pe]. *)
Definition seeker_token : string := "k.2000.1.1.a@x.com".
Definition new_seeker_token : string := "k.2000.5.1.new@x.com".
Definition shop1_token : string := "k.2000.2.2.shop1@x.com".
Definition shop2_token : string := "k.2000.3.2.shop2@x.com".

(** A token signed with another key, and one that expired at 900 s. *)
Definition forged_token : string := "other.2000.2.2.shop1@x.com".
Definition expired_token : string := "k.900.2.2.shop1@x.com".

Definition request (token id : string) (body : Json) : Request :=
  mkRequest (Some ("Bearer " ++ token)) id body None.

Definition anonymous (body : Json) : Request :=
  mkRequest None "" body None.

(** Requests. *)
Definition login_request (email password : string) : Request :=
  anonymous (JObj [("email", JStr email); ("password", JStr password)]).

Definition forgot_request (email : string) : Request :=
  anonymous (JObj [("email", JStr email)]).

Definition reset_request (email otpCode newPassword : string) : Request :=
  anonymous (JObj [("email", JStr email); ("otpCode", JStr otpCode);
                   ("newPassword", JStr newPassword)]).

Definition apply_request (token : string) (postId : Z) : Request :=
  request token "" (JObj [("postId", JNum postId)]).

Definition status_request (token id status : string) : Request :=
  request token id (status_body status).

End Example.

(** ** [POST /api/auth/register] *)

Section Registration.

Context {ext : Externals}.

Record RegisterData : Type := mkRegisterData {
  register_email : string;
  register_password : string;
  register_roleId : Z
}.

(** [z.number().int().min(1).max(2)]. *)
Definition z_roleId (v : Json) : option Z :=
  match z_int v with
  | Some n => if (1 <=? n) && (n <=? 2) then Some n else None
  | None => None
  end.

(** [registerSchema.parse(req.body)]: [password] of length at least 6,
    [roleId] 1 or 2. *)
Definition registerSchema (body : Json) : Exn + RegisterData :=
  if negb (is_object body) then inl (ZodError [""]) else
  let email := z_string zod_email (get_field "email" body) in
  let password :=
    z_string (fun s => Nat.leb 6 (String.length s))
      (get_field "password" body) in
  let roleId := z_roleId (get_field "roleId" body) in
  match email, password, roleId with
  | Some e, Some p, Some r => inr (mkRegisterData e p r)
  | _, _, _ =>
      inl (ZodError (issue "email" email ++ issue "password" password
                       ++ issue "roleId" roleId)%list)
  end.

(** Modelled from the spec: the Prisma schema is not among the sources.
    [prisma.user.create({ data: { email, passwordHash, roleId } })]: the new
    identity is active (spec, section 3 and the end-to-end scenario of
    section 8: a registered identity can log in); its id is the one the
    store assigns, [id]; the e-mail is unique (the code looks identities up
    by it with [findUnique]) and the role is a row of the role table (the
    code reads [user.role]), so a taken e-mail or a missing role refuses the
    row. *)
Definition user_create (id : Z) (email passwordHash : string) (roleId : Z)
    (s : Store) : option (User * Store) :=
  match prisma.user_findUnique_email email s,
        find (fun r => role_id r =? roleId) (roles s) with
  | None, Some _ =>
      let u := mkUser id email passwordHash roleId true in
      Some (u, set_users (fun l => (l ++ [u])%list) s)
  | _, _ => None
  end.

(** [POST /api/auth/register]; [id] is the id the store gives the new
    row.  The [createdAt] of the response is a column the rows do not
    hold. *)
Definition post_register (pe : ProcessEnv) (env : Env) (id : Z)
    (req : Request) : Store -> Response * Store :=
  try_catch
    (data <- parse (registerSchema (req_body req)) ;;
     existingUser <-
       query (prisma.user_findUnique_email (register_email data)) ;;
     exit_if (is_some existingUser) 400
       (json_error "Email already registered") ;;
     let passwordHash :=
       hashPassword (env_salt env) (register_password data) in
     user <-
       create (user_create id (register_email data) passwordHash
                 (register_roleId data)) "Invalid `prisma.user.create()`" ;;
     let token :=
       generateToken pe (env_now env)
         (mkJwtPayload (user_id user) (user_email user) (user_roleId user)) in
     ret (mkResponse 201
            (JObj [("message", JStr "User registered successfully");
                   ("user",
                    JObj [("id", JNum (user_id user));
                          ("email", JStr (user_email user));
                          ("roleId", JNum (user_roleId user))]);
                   ("token", JStr token)])))
    (catch_zod "Registration failed").

(** The answer of a login that succeeds. *)
Definition login_successful (pe : ProcessEnv) (now : Z) (user : User)
    (role : Role) : Response :=
  mkResponse 200
    (JObj [("message", JStr "Login successful");
           ("user",
            JObj [("id", JNum (user_id user));
                  ("email", JStr (user_email user));
                  ("roleId", JNum (user_roleId user));
                  ("roleName", JStr (role_name role))]);
           ("token",
            JStr (generateToken pe now
                    (mkJwtPayload (user_id user) (user_email user)
                       (user_roleId user))))]).

End Registration.

(** ** Responses of the middleware, and keys of the tables *)

Definition no_token_provided : Response :=
  mkResponse 401 (json_error "No token provided").

Definition insufficient_permissions : Response :=
  mkResponse 403 (json_error "Insufficient permissions").

Definition email_already_registered : Response :=
  mkResponse 400 (json_error "Email already registered").


(** The keys of the application table: ids are unique and below the
    sequence, and no seeker has two applications to one posting. *)
Definition applications_keyed (s : Store) : Prop :=
  NoDup (map app_id (applications s))
  /\ (forall a, In a (applications s) -> app_id a < seq_application s)
  /\ NoDup (map (fun a => (app_seekerId a, app_postId a)) (applications s)).


(** The posting [a] applies to belongs to the shop of the identity
    [userId]. *)
Definition application_of_shop_of (userId : Z) (s : Store) (a : Application)
  : Prop :=
  exists shop post,
    prisma.shop_findUnique_userId userId s = Some shop
    /\ prisma.shopJobPost_findUnique (app_postId a) s = Some post
    /\ post_shopId post = shop_id shop.

(** The posting [j] belongs to the shop of the identity [userId]. *)
Definition job_of_shop_of (userId : Z) (s : Store) (j : ShopJobPost) : Prop :=
  exists shop,
    prisma.shop_findUnique_userId userId s = Some shop
    /\ post_shopId j = shop_id shop.

(** The application [a] is one of the seeker profile of the identity
    [userId]. *)
Definition application_of_seeker_of (userId : Z) (s : Store)
    (a : Application) : Prop :=
  exists profile,
    prisma.jobSeekerProfile_findUnique_userId userId s = Some profile
    /\ app_seekerId a = jsp_id profile.

(** ** More requests on the example store *)

Module Example2.
Import Example.

(** Ten minutes after [env], the last clock at which a code requested at
    [env] is valid, and one millisecond later. *)
Definition at_expiry : Env := mkEnv 1600000 (2 ^ 1073) "pepper" None.

Definition register_request (email password : string) (roleId : Z)
  : Request :=
  anonymous (JObj [("email", JStr email); ("password", JStr password);
                   ("roleId", JNum roleId)]).

(** The id the store gives the next identity. *)
Definition next_user_id : Z := 6.

Definition no_header : Request := anonymous JNull.

Definition basic_header : Request :=
  mkRequest (Some "Basic dXNlcjpwYXNz") "" JNull
    (Some (mkJwtPayload 2 "shop1@x.com" 2)).

End Example2.

(** * Properties *)

(** ** The OTP generator *)

Module DecimalFacts.
Import Decimal.

Lemma digit_cases (d : Z) :
  0 <= d < 10 ->
  d = 0 \/ d = 1 \/ d = 2 \/ d = 3 \/ d = 4 \/ d = 5 \/ d = 6 \/ d = 7
  \/ d = 8 \/ d = 9.
Proof. lia. Qed.

Lemma is_digit_digit_char (d : Z) :
  0 <= d < 10 -> is_digit (digit_char d) = true.
Proof.
  intros H. destruct (digit_cases d H) as [E | E]; [ now subst |].
  repeat (destruct E as [E | E]; [ now subst |]). now subst.
Qed.

Lemma digit_value_digit_char (d : Z) :
  0 <= d < 10 -> digit_value (digit_char d) = d.
Proof.
  intros H. destruct (digit_cases d H) as [E | E]; [ now subst |].
  repeat (destruct E as [E | E]; [ now subst |]). now subst.
Qed.

(** The rendering of a six-digit number, digit by digit. *)
Lemma render_six (fuel : nat) (n : Z) :
  (6 <= fuel)%nat -> 100000 <= n <= 999999 ->
  render fuel n EmptyString =
  String (digit_char (n / 100000 mod 10))
    (String (digit_char (n / 10000 mod 10))
       (String (digit_char (n / 1000 mod 10))
          (String (digit_char (n / 100 mod 10))
             (String (digit_char (n / 10 mod 10))
                (String (digit_char (n mod 10)) EmptyString))))).
Proof.
  intros Hfuel Hn.
  do 6 (destruct fuel as [| fuel]; [ lia |]).
  cbn [render].
  assert (E1 : (n <? 10) = false) by (apply Z.ltb_ge; lia).
  assert (E2 : (n / 10 <? 10) = false)
    by (apply Z.ltb_ge; apply Z.div_le_lower_bound; lia).
  assert (E3 : (n / 10 / 10 <? 10) = false).
  { apply Z.ltb_ge. rewrite Z.div_div by lia.
    apply Z.div_le_lower_bound; lia. }
  assert (E4 : (n / 10 / 10 / 10 <? 10) = false).
  { apply Z.ltb_ge. rewrite !Z.div_div by lia.
    apply Z.div_le_lower_bound; lia. }
  assert (E5 : (n / 10 / 10 / 10 / 10 <? 10) = false).
  { apply Z.ltb_ge. rewrite !Z.div_div by lia.
    apply Z.div_le_lower_bound; lia. }
  assert (E6 : (n / 10 / 10 / 10 / 10 / 10 <? 10) = true).
  { apply Z.ltb_lt. rewrite !Z.div_div by lia.
    apply Z.div_lt_upper_bound; lia. }
  rewrite E1, E2, E3, E4, E5, E6.
  rewrite !Z.div_div by lia. reflexivity.
Qed.

Lemma toString_six (n : Z) :
  100000 <= n <= 999999 ->
  toString n =
  String (digit_char (n / 100000 mod 10))
    (String (digit_char (n / 10000 mod 10))
       (String (digit_char (n / 1000 mod 10))
          (String (digit_char (n / 100 mod 10))
             (String (digit_char (n / 10 mod 10))
                (String (digit_char (n mod 10)) EmptyString))))).
Proof.
  intros Hn. unfold toString.
  replace (n <? 0) with false by (symmetry; apply Z.ltb_ge; lia).
  apply render_six; [| exact Hn].
  assert (16 <= Z.log2 n).
  { change 16 with (Z.log2 (2 ^ 16)). apply Z.log2_le_mono. lia. }
  lia.
Qed.

End DecimalFacts.

Module Binary64Facts.
Import Binary64.

Lemma ulp_pos n : 0 < ulp n.
Proof. unfold ulp. apply Z.pow_pos_nonneg; lia. Qed.

Lemma ulp_mono a b : 0 <= a <= b -> ulp a <= ulp b.
Proof.
  intros H. unfold ulp. apply Z.pow_le_mono_r; [ lia |].
  pose proof (Z.log2_le_mono a b (proj2 H)). lia.
Qed.

(** Distinct weights differ by a factor of two at least. *)
Lemma ulp_double a b : 0 <= a <= b -> ulp a < ulp b -> 2 * ulp a <= ulp b.
Proof.
  intros H Hlt. unfold ulp in *.
  set (ea := Z.max 0 (Z.log2 a - 52)) in *.
  set (eb := Z.max 0 (Z.log2 b - 52)) in *.
  assert (ea < eb).
  { destruct (Z.lt_ge_cases ea eb) as [L | G]; [ exact L |].
    apply (Z.pow_le_mono_r 2) in G; lia. }
  replace (2 * 2 ^ ea) with (2 ^ (ea + 1))
    by (rewrite Z.pow_add_r by lia; lia).
  apply Z.pow_le_mono_r; lia.
Qed.

(** At most 53 significant bits fit above the weight of the last. *)
Lemma below_top n : 0 <= n -> n < 2 ^ 53 * ulp n.
Proof.
  intros Hn. unfold ulp.
  destruct (Z.eq_dec n 0) as [-> | Hz]; [ cbn; lia |].
  pose proof (Z.log2_spec n ltac:(lia)) as [_ Hup].
  destruct (Z.le_gt_cases (Z.log2 n) 52) as [L | G].
  - rewrite Z.max_l by lia. rewrite Z.pow_0_r, Z.mul_1_r.
    eapply Z.lt_le_trans; [ exact Hup |].
    apply Z.pow_le_mono_r; lia.
  - rewrite Z.max_r by lia. rewrite <- Z.pow_add_r by lia.
    replace (53 + (Z.log2 n - 52)) with (Z.succ (Z.log2 n)) by lia.
    exact Hup.
Qed.

Lemma above_bottom n : 1 < ulp n -> 2 ^ 52 * ulp n <= n.
Proof.
  unfold ulp. intros H.
  destruct (Z.le_gt_cases (Z.log2 n) 52) as [L | G].
  - rewrite Z.max_l in H by lia. cbn in H. lia.
  - rewrite Z.max_r by lia. rewrite <- Z.pow_add_r by lia.
    replace (52 + (Z.log2 n - 52)) with (Z.log2 n) by lia.
    assert (0 < n).
    { destruct (Z.lt_ge_cases 0 n); [ assumption |].
      rewrite Z.log2_nonpos in G by lia. lia. }
    apply Z.log2_spec. assumption.
Qed.

Lemma round_bounds n :
  0 <= n -> n / ulp n * ulp n <= round n <= (n / ulp n + 1) * ulp n.
Proof.
  intros Hn. unfold round. pose proof (ulp_pos n).
  destruct (2 * (n mod ulp n) <? ulp n); [ nia |].
  destruct (ulp n <? 2 * (n mod ulp n)); [ nia |].
  destruct (Z.even (n / ulp n)); nia.
Qed.

Lemma round_le_top n : 0 <= n -> round n <= 2 ^ 53 * ulp n.
Proof.
  intros Hn. pose proof (round_bounds n Hn) as [_ H].
  pose proof (below_top n Hn). pose proof (ulp_pos n).
  assert (n / ulp n < 2 ^ 53) by (apply Z.div_lt_upper_bound; lia).
  nia.
Qed.

Lemma round_ge_bottom n : 0 <= n -> 1 < ulp n -> 2 ^ 52 * ulp n <= round n.
Proof.
  intros Hn Hu. pose proof (round_bounds n Hn) as [H _].
  pose proof (above_bottom n Hu).
  assert (2 ^ 52 <= n / ulp n) by (apply Z.div_le_lower_bound; lia).
  nia.
Qed.

(** Rounding keeps the order. *)
Lemma round_mono a b : 0 <= a <= b -> round a <= round b.
Proof.
  intros H. pose proof (ulp_mono a b H) as Hu.
  pose proof (ulp_pos a) as Hpa.
  destruct (Z.eq_dec (ulp a) (ulp b)) as [E | N].
  - unfold round. rewrite <- E.
    set (u := ulp a) in *.
    pose proof (Z.div_mod a u ltac:(lia)) as Da.
    pose proof (Z.div_mod b u ltac:(lia)) as Db.
    pose proof (Z.mod_pos_bound a u Hpa) as Ra.
    pose proof (Z.mod_pos_bound b u Hpa) as Rb.
    assert (Hq : a / u <= b / u) by (apply Z.div_le_mono; lia).
    destruct (Z.eq_dec (a / u) (b / u)) as [Q | Q].
    + rewrite <- Q in *.
      assert (a mod u <= b mod u) by lia.
      destruct (Z.ltb_spec (2 * (a mod u)) u);
        destruct (Z.ltb_spec (2 * (b mod u)) u); try nia;
        destruct (Z.ltb_spec u (2 * (a mod u)));
        destruct (Z.ltb_spec u (2 * (b mod u))); try nia;
        destruct (Z.even (a / u)); nia.
    + assert ((a / u + 1) * u <= b / u * u) by nia.
      destruct (2 * (a mod u) <? u), (u <? 2 * (a mod u)),
        (Z.even (a / u)), (2 * (b mod u) <? u), (u <? 2 * (b mod u)),
        (Z.even (b / u)); nia.
  - assert (Hlt : ulp a < ulp b) by lia.
    pose proof (ulp_double a b H Hlt).
    pose proof (round_le_top a ltac:(lia)).
    pose proof (round_ge_bottom b ltac:(lia) ltac:(lia)).
    nia.
Qed.

Lemma round_nonneg n : 0 <= n -> 0 <= round n.
Proof.
  intros Hn. pose proof (round_bounds n Hn) as [H _].
  pose proof (ulp_pos n).
  assert (0 <= n / ulp n) by (apply Z.div_pos; lia). nia.
Qed.


(** The largest double below one is [1 - 2^-53]. *)
Lemma below_one n :
  representable n = true -> n < one -> n <= one - 2 ^ 1021.
Proof.
  unfold representable. intros Hrep Hlt.
  apply andb_true_iff in Hrep. destruct Hrep as [Hn Hmod].
  apply Z.leb_le in Hn. apply Z.eqb_eq in Hmod.
  assert (Hone : one = 2 ^ 53 * 2 ^ 1021) by reflexivity.
  assert (Hhalf : 2 ^ 1073 = 2 ^ 52 * 2 ^ 1021) by reflexivity.
  assert (Hpos : 0 < 2 ^ 1021) by (apply Z.pow_pos_nonneg; lia).
  destruct (Z.lt_ge_cases n (2 ^ 1073)) as [L | G].
  - rewrite Hone. rewrite Hhalf in L. nia.
  - assert (Hlog : Z.log2 n = 1073).
    { apply Z.log2_unique; [ lia |]. split; [ exact G |]. exact Hlt. }
    unfold ulp in Hmod. rewrite Hlog in Hmod.
    change (Z.max 0 (1073 - 52)) with 1021 in Hmod.
    pose proof (Z.div_mod n (2 ^ 1021) ltac:(lia)) as D.
    rewrite Hmod in D.
    assert (n / 2 ^ 1021 < 2 ^ 53)
      by (apply Z.div_lt_upper_bound;
          [ lia | rewrite Z.mul_comm, <- Hone; exact Hlt ]).
    rewrite Hone. nia.
Qed.

Lemma generateOTP_floor_range r :
  representable r = true -> r < one ->
  100000 <= floor (add (of_int 100000) (mul_int r 900000)) <= 999999.
Proof.
  intros Hrep Hlt.
  assert (H0 : 0 <= r).
  { unfold representable in Hrep. apply andb_true_iff in Hrep.
    now apply Z.leb_le. }
  pose proof (below_one r Hrep Hlt) as Hmax.
  assert (Hp0 : 0 <= mul_int r 900000)
    by (apply round_nonneg; lia).
  assert (Hp1 : mul_int r 900000 <= mul_int (one - 2 ^ 1021) 900000)
    by (apply round_mono; lia).
  assert (Ha : of_int 100000 = 100000 * one) by (vm_compute; reflexivity).
  assert (H100 : 0 <= of_int 100000) by (rewrite Ha; vm_compute; discriminate).
  assert (Hs0 : add (of_int 100000) 0
                <= add (of_int 100000) (mul_int r 900000))
    by (apply round_mono; lia).
  assert (Hs1 : add (of_int 100000) (mul_int r 900000)
                <= add (of_int 100000) (mul_int (one - 2 ^ 1021) 900000))
    by (apply round_mono; lia).
  assert (Hone : 0 < one) by (vm_compute; reflexivity).
  unfold floor. split.
  - replace 100000 with (add (of_int 100000) 0 / one)
      by (vm_compute; reflexivity).
    apply Z.div_le_mono; [ exact Hone | exact Hs0 ].
  - replace 999999
      with (add (of_int 100000) (mul_int (one - 2 ^ 1021) 900000) / one)
      by (vm_compute; reflexivity).
    apply Z.div_le_mono; [ exact Hone | exact Hs1 ].
Qed.

End Binary64Facts.

Example generateOTP_0 : generateOTP 0 = "100000".
Proof. vm_compute. reflexivity. Qed.

Example generateOTP_half : generateOTP (2 ^ 1073) = "550000".
Proof. vm_compute. reflexivity. Qed.

(** The draw [1 - 2^-53], the largest there is. *)
Example generateOTP_top : generateOTP (2 ^ 1074 - 2 ^ 1021) = "999999".
Proof. vm_compute. reflexivity. Qed.

(** The model and the hardware agree on the number floored, at both ends
    of the range of the draw, in the middle and on some more draws. *)
Example generateOTP_as_hardware :
  forallb
    (fun r =>
       match Binary64.of_float (generateOTP_float (Binary64.to_float r)) with
       | Some x =>
           Binary64.representable r
           && (x =? Binary64.add (Binary64.of_int 100000)
                      (Binary64.mul_int r 900000))
       | None => false
       end)
    [0; 1; 2 ^ 52 + 1; 2 ^ 1021; 3 * 2 ^ 1020 + 2 ^ 1000; 2 ^ 1073;
     6004799503160661 * 2 ^ 1021; 2 ^ 1074 - 2 ^ 1022;
     2 ^ 1074 - 2 ^ 1021]
  = true.
Proof. vm_compute. reflexivity. Qed.

(** C9: for every double [r] that [Math.random()] can return, not
    negative and below one, [generateOTP] returns a string of exactly six
    characters, all of them decimal digits, and the number they denote lies
    in [100000, 999999]. *)
Theorem generateOTP_six_digits (r : Z) :
  Binary64.representable r = true -> r < Binary64.one ->
  String.length (generateOTP r) = 6%nat
  /\ Decimal.all_digits (generateOTP r) = true
  /\ 100000 <= Decimal.value (generateOTP r) <= 999999.
Proof.
  intros Hrep Hlt. unfold generateOTP.
  pose proof (Binary64Facts.generateOTP_floor_range r Hrep Hlt) as Hn.
  set (n := Binary64.floor _) in *. clearbody n.
  rewrite (DecimalFacts.toString_six n Hn).
  assert (D : forall k, 0 < k -> 0 <= n / k mod 10 < 10)
    by (intros; apply Z.mod_pos_bound; lia).
  assert (D0 : 0 <= n mod 10 < 10) by (apply Z.mod_pos_bound; lia).
  split; [ reflexivity | split ].
  - cbn [Decimal.all_digits].
    rewrite !DecimalFacts.is_digit_digit_char by (auto; apply D; lia).
    reflexivity.
  - unfold Decimal.value. cbn [Decimal.value_from].
    rewrite !DecimalFacts.digit_value_digit_char by (auto; apply D; lia).
    enough (E : 10 * (10 * (10 * (10 * (10 * (10 * 0 + n / 100000 mod 10)
                  + n / 10000 mod 10) + n / 1000 mod 10) + n / 100 mod 10)
                  + n / 10 mod 10) + n mod 10 = n) by (rewrite E; exact Hn).
    pose proof (Z.div_mod n 10 ltac:(lia)) as S0.
    pose proof (Z.div_mod (n / 10) 10 ltac:(lia)) as S1.
    pose proof (Z.div_mod (n / 100) 10 ltac:(lia)) as S2.
    pose proof (Z.div_mod (n / 1000) 10 ltac:(lia)) as S3.
    pose proof (Z.div_mod (n / 10000) 10 ltac:(lia)) as S4.
    pose proof (Z.div_mod (n / 100000) 10 ltac:(lia)) as S5.
    assert (Q1 : n / 10 / 10 = n / 100) by (now rewrite Z.div_div by lia).
    assert (Q2 : n / 100 / 10 = n / 1000) by (now rewrite Z.div_div by lia).
    assert (Q3 : n / 1000 / 10 = n / 10000) by (now rewrite Z.div_div by lia).
    assert (Q4 : n / 10000 / 10 = n / 100000)
      by (now rewrite Z.div_div by lia).
    assert (Q5 : n / 100000 / 10 = 0).
    { rewrite Z.div_div by lia. apply Z.div_small. lia. }
    rewrite Q1 in S1. rewrite Q2 in S2. rewrite Q3 in S3. rewrite Q4 in S4.
    rewrite Q5 in S5. lia.
Qed.

(** On the draw nearest to two thirds. *)
Lemma generateOTP_six_digits_witness :
  String.length (generateOTP (6004799503160661 * 2 ^ 1021)) = 6%nat
  /\ Decimal.all_digits (generateOTP (6004799503160661 * 2 ^ 1021)) = true
  /\ 100000 <= Decimal.value (generateOTP (6004799503160661 * 2 ^ 1021))
     <= 999999.
Proof.
  apply (generateOTP_six_digits (6004799503160661 * 2 ^ 1021)).
  - vm_compute. reflexivity.
  - vm_compute. reflexivity.
Defined.

(** ** Login of a deactivated account *)

Section Login.

Context {ext : Externals}.

Lemma login_unknown_email pe env req s data :
  loginSchema (req_body req) = inr data ->
  prisma.user_findUnique_email (login_email data) s = None ->
  post_login pe env req s = (invalid_credentials, s).
Proof.
  intros Hparse Hfind. unfold post_login. unfold_handler.
  rewrite Hparse, Hfind. reflexivity.
Qed.

Lemma login_wrong_password pe env req s data user :
  loginSchema (req_body req) = inr data ->
  prisma.user_findUnique_email (login_email data) s = Some user ->
  user_isActive user = true ->
  comparePassword (login_password data) (user_passwordHash user) = false ->
  post_login pe env req s = (invalid_credentials, s).
Proof.
  intros Hparse Hfind Hactive Hcmp. unfold post_login. unfold_handler.
  rewrite Hparse, Hfind, Hactive. cbn [negb]. rewrite Hcmp. reflexivity.
Qed.

(** C10: a login whose e-mail resolves to an identity with the active flag
    false is answered 403 "Account is deactivated" and leaves the store as
    it was, whatever the password; the answer is the same under every
    password comparison put in place of [bcrypt.compare], so it is given
    before the password is verified; and it is not the 401 "Invalid email or
    password" of an unknown e-mail or a wrong password. *)
Theorem login_deactivated_rejected_before_password
    (pe : ProcessEnv) (env : Env) (req : Request) (s : Store)
    (data : LoginData) (user : User) :
  loginSchema (req_body req) = inr data ->
  prisma.user_findUnique_email (login_email data) s = Some user ->
  user_isActive user = false ->
  post_login pe env req s = (account_deactivated, s)
  /\ (forall compare : string -> string -> bool,
        @post_login (with_compare compare) pe env req s
        = (account_deactivated, s))
  /\ res_status account_deactivated = 403
  /\ res_status invalid_credentials = 401
  /\ account_deactivated <> invalid_credentials.
Proof.
  intros Hparse Hfind Hactive.
  assert (E : forall compare,
             @post_login (with_compare compare) pe env req s
             = (account_deactivated, s)).
  { intros compare. unfold post_login. unfold_handler.
    change (@loginSchema (with_compare compare)) with (@loginSchema ext).
    rewrite Hparse, Hfind, Hactive. reflexivity. }
  repeat split.
  - unfold post_login. unfold_handler.
    rewrite Hparse, Hfind, Hactive. reflexivity.
  - exact E.
  - discriminate.
Qed.

End Login.

(** ** Tables *)

Section Tables.

Context {R : Type}.

Lemma update_where_found (key : R -> Z) (f : R -> R) (x : R) (rows : list R) :
  In x rows ->
  prisma.update_where key (key x) f rows
  = Some (map (fun r => if key r =? key x then f r else r) rows).
Proof.
  intros Hin. unfold prisma.update_where.
  replace (existsb (fun r => key r =? key x) rows) with true; [ reflexivity |].
  symmetry. apply existsb_exists. exists x. split; [ exact Hin |].
  apply Z.eqb_refl.
Qed.

(** A rewrite of the rows that keeps the truth of [p] keeps what [find p]
    finds, rewritten. *)
Lemma find_map_preserving (p : R -> bool) (g : R -> R) (rows : list R) :
  (forall y, p (g y) = p y) ->
  find p (map g rows) = option_map g (find p rows).
Proof.
  intros Hp. induction rows as [| y rows IH]; [ reflexivity |].
  cbn [map find]. rewrite Hp. destruct (p y); [ reflexivity | exact IH ].
Qed.

Lemma find_none_iff (p : R -> bool) (rows : list R) :
  find p rows = None <-> (forall y, In y rows -> p y = false).
Proof.
  split.
  - intros H y Hin. exact (find_none p rows H y Hin).
  - intros H. induction rows as [| y rows IH]; [ reflexivity |].
    cbn [find]. rewrite (H y (or_introl eq_refl)).
    apply IH. intros z Hz. apply H. now right.
Qed.

End Tables.

(** ** Password recovery *)

Section Recovery.

Context {ext : Externals}.

Lemma user_found_in s email user :
  prisma.user_findUnique_email email s = Some user ->
  In user (users s) /\ user_email user = email.
Proof.
  unfold prisma.user_findUnique_email. intros H.
  apply find_some in H. destruct H as [Hin He].
  split; [ exact Hin | now apply String.eqb_eq ].
Qed.

Lemma reset_found_in s userId otpCode now pr :
  prisma.passwordReset_findFirst userId otpCode now s = Some pr ->
  In pr (passwordResets s) /\ prisma.reset_matches userId otpCode now pr = true.
Proof. unfold prisma.passwordReset_findFirst. apply find_some. Qed.

(** The two writes of the transaction, run: all or nothing. *)
Lemma reset_writes_run fault s user pr passwordHash :
  In user (users s) -> In pr (passwordResets s) ->
  prisma.run_writes fault 0
    [prisma.user_update_passwordHash (user_id user) passwordHash;
     prisma.passwordReset_update_isUsed (pr_id pr)] s
  = if prisma.fault_at fault 0 || prisma.fault_at fault 1 then None
    else Some (reset_committed (user_id user) passwordHash (pr_id pr) s).
Proof.
  intros Hu Hr. cbn [prisma.run_writes].
  destruct (prisma.fault_at fault 0); [ reflexivity |].
  unfold prisma.user_update_passwordHash, prisma.on_users.
  rewrite (update_where_found user_id _ user (users s) Hu).
  cbn [option_map].
  destruct (prisma.fault_at fault 1); [ reflexivity |].
  unfold prisma.passwordReset_update_isUsed, prisma.on_passwordResets.
  cbn [passwordResets set_users].
  rewrite (update_where_found pr_id _ pr (passwordResets s) Hr).
  reflexivity.
Qed.

(** The handler on a request whose code matches a record. *)
Lemma reset_password_run env req s data user pr :
  resetPasswordSchema (req_body req) = inr data ->
  prisma.user_findUnique_email (reset_email data) s = Some user ->
  prisma.passwordReset_findFirst (user_id user) (reset_otpCode data)
    (env_now env) s = Some pr ->
  post_reset_password env req s
  = if reset_fails env then (failed_to_reset_password, s)
    else (password_reset_successful,
          reset_committed (user_id user)
            (hashPassword (env_salt env) (reset_newPassword data))
            (pr_id pr) s).
Proof.
  intros Hparse Huser Hpr.
  destruct (user_found_in _ _ _ Huser) as [Hu _].
  destruct (reset_found_in _ _ _ _ _ Hpr) as [Hr _].
  unfold post_reset_password, prisma.transaction. unfold_handler.
  rewrite Hparse, Huser, Hpr.
  rewrite (reset_writes_run _ _ _ _ _ Hu Hr).
  unfold reset_fails. destruct (_ || _); reflexivity.
Qed.

Lemma committed_password_is s email user passwordHash resetId :
  prisma.user_findUnique_email email s = Some user ->
  password_is email passwordHash
    (reset_committed (user_id user) passwordHash resetId s).
Proof.
  intros Huser. unfold password_is, prisma.user_findUnique_email.
  cbn [reset_committed users set_passwordResets set_users].
  rewrite find_map_preserving.
  - unfold prisma.user_findUnique_email in Huser. rewrite Huser.
    cbn [option_map]. rewrite Z.eqb_refl. eexists. split; reflexivity.
  - intros y. destruct (user_id y =? user_id user); reflexivity.
Qed.

Lemma committed_reset_used s userId passwordHash pr :
  In pr (passwordResets s) ->
  reset_used (pr_id pr) (reset_committed userId passwordHash (pr_id pr) s).
Proof.
  intros Hin. unfold reset_used.
  cbn [reset_committed passwordResets set_passwordResets].
  split.
  - eexists. split.
    + apply in_map_iff. exists pr. split; [ reflexivity | exact Hin ].
    + rewrite Z.eqb_refl. reflexivity.
  - intros r Hr Hid. apply in_map_iff in Hr. destruct Hr as [r0 [E _]].
    destruct (pr_id r0 =? pr_id pr) eqn:K; subst r; [ reflexivity |].
    apply Z.eqb_neq in K. contradiction.
Qed.

(** C5: when the code of a reset request matches a record, the handler
    ends in one of two states.  Either it answers 200, the digest of the
    identity is the hash of the new password and the matched record is
    marked used; or the store failed a write of the transaction, it answers
    500 and the store is the one before the request.  Without a store
    failure it is the first. *)
Theorem reset_password_all_or_nothing
    (env : Env) (req : Request) (s : Store) (data : ResetPasswordData)
    (user : User) (pr : PasswordReset) :
  resetPasswordSchema (req_body req) = inr data ->
  prisma.user_findUnique_email (reset_email data) s = Some user ->
  prisma.passwordReset_findFirst (user_id user) (reset_otpCode data)
    (env_now env) s = Some pr ->
  let response := fst (post_reset_password env req s) in
  let s' := snd (post_reset_password env req s) in
  ((response = password_reset_successful
    /\ password_is (reset_email data)
         (hashPassword (env_salt env) (reset_newPassword data)) s'
    /\ reset_used (pr_id pr) s')
   \/ (response = failed_to_reset_password /\ s' = s))
  /\ (env_fault env = None -> response = password_reset_successful).
Proof.
  intros Hparse Huser Hpr response s'. subst response s'.
  rewrite (reset_password_run env req s data user pr Hparse Huser Hpr).
  destruct (reset_found_in _ _ _ _ _ Hpr) as [Hr _].
  split.
  - destruct (reset_fails env); cbn [fst snd].
    + right. split; reflexivity.
    + left. split; [ reflexivity | split ].
      * now apply committed_password_is.
      * now apply committed_reset_used.
  - intros Hnone. unfold reset_fails. rewrite Hnone. reflexivity.
Qed.

End Recovery.

Section RecoveryErrors.

Context {ext : Externals}.



Lemma reset_password_no_match_run env req s data user :
  resetPasswordSchema (req_body req) = inr data ->
  prisma.user_findUnique_email (reset_email data) s = Some user ->
  prisma.passwordReset_findFirst (user_id user) (reset_otpCode data)
    (env_now env) s = None ->
  post_reset_password env req s = (invalid_or_expired_otp, s).
Proof.
  intros Hparse Huser Hpr. unfold post_reset_password. unfold_handler.
  rewrite Hparse, Huser, Hpr. reflexivity.
Qed.

Lemma reset_password_unknown_email_run env req s data :
  resetPasswordSchema (req_body req) = inr data ->
  prisma.user_findUnique_email (reset_email data) s = None ->
  post_reset_password env req s = (invalid_request, s).
Proof.
  intros Hparse Huser. unfold post_reset_password. unfold_handler.
  rewrite Hparse, Huser. reflexivity.
Qed.



Lemma forgot_password_unknown_run env req s email :
  forgotPasswordSchema (req_body req) = inr email ->
  prisma.user_findUnique_email email s = None ->
  post_forgot_password env req s = (otp_maybe_sent, s).
Proof.
  intros Hparse Huser. unfold post_forgot_password. unfold_handler.
  rewrite Hparse, Huser. reflexivity.
Qed.

Lemma forgot_password_known_run env req s email user :
  forgotPasswordSchema (req_body req) = inr email ->
  prisma.user_findUnique_email email s = Some user ->
  post_forgot_password env req s
  = (otp_sent (generateOTP (env_random env)),
     snd (prisma.passwordReset_create (user_id user)
            (generateOTP (env_random env)) (getOTPExpiry (env_now env)) s)).
Proof.
  intros Hparse Huser. unfold post_forgot_password. unfold_handler.
  rewrite Hparse, Huser. reflexivity.
Qed.

(** C1, where the code departs from it: a recovery request for an e-mail
    without identity creates no reset record and is answered 200, but not
    with the body of the answer to an e-mail with an identity: the message
    differs, and the latter carries the code. *)
Theorem forgot_password_answers_differ
    (env : Env) (known unknown : Request) (s : Store)
    (email email' : string) (user : User) :
  forgotPasswordSchema (req_body known) = inr email ->
  prisma.user_findUnique_email email s = Some user ->
  forgotPasswordSchema (req_body unknown) = inr email' ->
  prisma.user_findUnique_email email' s = None ->
  fst (post_forgot_password env known s)
  <> fst (post_forgot_password env unknown s)
  /\ res_status (fst (post_forgot_password env known s)) = 200
  /\ res_status (fst (post_forgot_password env unknown s)) = 200
  /\ snd (post_forgot_password env unknown s) = s
  /\ passwordResets (snd (post_forgot_password env known s))
     = (passwordResets s
        ++ [mkPasswordReset (seq_passwordReset s) (user_id user)
              (generateOTP (env_random env)) (getOTPExpiry (env_now env))
              false])%list.
Proof.
  intros Hk Hku Hu Huu.
  rewrite (forgot_password_known_run env known s email user Hk Hku).
  rewrite (forgot_password_unknown_run env unknown s email' Hu Huu).
  cbn [fst snd]. repeat split. discriminate.
Qed.

End RecoveryErrors.

(** ** Authentication of a route *)

Section Routes.

Context {ext : Externals}.

Lemma substring_all (s : string) : substring 0 (String.length s) s = s.
Proof.
  induction s as [| c s IH]; [ reflexivity |].
  cbn [String.length substring]. now rewrite IH.
Qed.

(** A bearer token that verifies is attached to the request. *)
Lemma authenticate_bearer pe now req token payload :
  req_authorization req = Some ("Bearer " ++ token) ->
  verifyToken pe now token = inr payload ->
  authenticate pe now req = inr (with_user req payload).
Proof.
  intros Hhead Hverify. unfold authenticate. rewrite Hhead.
  cbn [String.append String.prefix Ascii.ascii_dec]. cbn.
  replace (prefix "" token) with true by (now destruct token).
  cbn [negb]. rewrite Nat.sub_0_r, substring_all, Hverify. reflexivity.
Qed.

(** The chain of a protected route lets the holder of a token of the
    required role through to the handler. *)
Lemma route_authorized pe now role handler req s token payload :
  req_authorization req = Some ("Bearer " ++ token) ->
  verifyToken pe now token = inr payload ->
  jwt_roleId payload = role ->
  route [authenticate pe now; requireRole [role]] handler req s
  = handler (with_user req payload) s.
Proof.
  intros Hhead Hverify Hrole. cbn [route].
  rewrite (authenticate_bearer pe now req token payload Hhead Hverify).
  unfold requireRole. cbn [req_user with_user existsb].
  rewrite Hrole, Z.eqb_refl. reflexivity.
Qed.

End Routes.

(** ** Creation of an application *)

Section ApplicationCreation.

Context {ext : Externals}.

Lemma is_some_find_existsb {R : Type} (p : R -> bool) (rows : list R) :
  is_some (find p rows) = existsb p rows.
Proof.
  induction rows as [| y rows IH]; [ reflexivity |].
  cbn [find existsb]. destruct (p y); [ reflexivity | exact IH ].
Qed.

(** The handler, once the request carries the caller: the specification's
    first failure decides the response, and only a request without one
    writes. *)
Lemma create_application_run req s payload postId :
  req_user req = Some payload ->
  createApplicationSchema (req_body req) = inr postId ->
  create_application req s
  = match spec_first_failure (jwt_userId payload) postId s with
    | Some e => (creation_error_response e, s)
    | None =>
        match prisma.jobSeekerProfile_findUnique_userId (jwt_userId payload) s
        with
        | Some profile =>
            let a := mkApplication (seq_application s) (jsp_id profile) postId
                       "pending" in
            (mkResponse 201
               (JObj [("message", JStr "Application submitted successfully");
                      ("application", application_json a)]),
             bump_seq_application
               (set_applications (fun l => (l ++ [a])%list) s))
        | None => (creation_error_response ProfileRequired, s)
        end
    end.
Proof.
  intros Huser Hparse. unfold create_application, spec_first_failure.
  unfold_handler. rewrite Hparse, Huser.
  unfold prisma.jobSeekerProfile_findUnique_userId.
  destruct (find _ (jobSeekerProfiles s)) as [profile |]; [| reflexivity ].
  unfold prisma.shopJobPost_findUnique.
  destruct (find _ (shopJobPosts s)) as [job |]; [| reflexivity ].
  destruct (negb (post_status job =? "open")%string); [ reflexivity |].
  unfold prisma.application_create.
  rewrite <- (is_some_find_existsb _ (applications s)).
  unfold prisma.application_findUnique_seekerId_postId.
  destruct (find _ (applications s)) eqn:E; cbn [is_some];
    [ reflexivity | rewrite E; reflexivity ].
Qed.

(** A request that fails the schema is answered 400 and writes nothing. *)
Lemma create_application_invalid_run req s e :
  createApplicationSchema (req_body req) = inl e ->
  res_status (fst (create_application req s)) = 400
  /\ snd (create_application req s) = s.
Proof.
  intros Hparse.
  assert (Hz : exists issues, e = ZodError issues).
  { unfold createApplicationSchema in Hparse.
    destruct (negb (is_object (req_body req)));
      [ inversion Hparse; now eexists |].
    destruct (z_int _); inversion Hparse. now eexists. }
  destruct Hz as [issues ->].
  unfold create_application. unfold_handler. rewrite Hparse.
  split; reflexivity.
Qed.

(** C7: for a request to create an application that carries the token of a
    job seeker, once the body has passed the schema the four preconditions
    decide the response in the specification's order: no seeker profile, 404
    profile required; else no such posting, 404 not found; else a posting
    that is not open, 400 job closed; else an application of the seeker to
    the posting, 400 duplicate.  The first that fails gives the response and
    the store is left as it was; when none fails the response is 201 and one
    pending application of the seeker to the posting is appended.  Whatever
    the body, a response other than 201 leaves the store as it was. *)
Theorem create_application_first_failure_wins
    (pe : ProcessEnv) (env : Env) (req : Request) (s : Store)
    (token : string) (payload : JwtPayload) :
  req_authorization req = Some ("Bearer " ++ token) ->
  verifyToken pe (env_now env) token = inr payload ->
  jwt_roleId payload = ROLES.JOB_SEEKER ->
  (forall postId,
      createApplicationSchema (req_body req) = inr postId ->
      match spec_first_failure (jwt_userId payload) postId s with
      | Some e =>
          post_applications pe env req s = (creation_error_response e, s)
      | None =>
          exists profile,
            prisma.jobSeekerProfile_findUnique_userId (jwt_userId payload) s
            = Some profile
            /\ res_status (fst (post_applications pe env req s)) = 201
            /\ applications (snd (post_applications pe env req s))
               = (applications s
                  ++ [mkApplication (seq_application s) (jsp_id profile)
                        postId "pending"])%list
      end)
  /\ (res_status (fst (post_applications pe env req s)) <> 201 ->
      snd (post_applications pe env req s) = s).
Proof.
  intros Hhead Hverify Hrole. unfold post_applications.
  rewrite (route_authorized pe (env_now env) ROLES.JOB_SEEKER
             create_application req s token payload Hhead Hverify Hrole).
  assert (Hrun : forall postId,
             createApplicationSchema (req_body req) = inr postId ->
             match spec_first_failure (jwt_userId payload) postId s with
             | Some e =>
                 create_application (with_user req payload) s
                 = (creation_error_response e, s)
             | None =>
                 exists profile,
                   prisma.jobSeekerProfile_findUnique_userId
                     (jwt_userId payload) s = Some profile
                   /\ res_status
                        (fst (create_application (with_user req payload) s))
                      = 201
                   /\ applications
                        (snd (create_application (with_user req payload) s))
                      = (applications s
                         ++ [mkApplication (seq_application s)
                               (jsp_id profile) postId "pending"])%list
             end).
  { intros postId Hparse.
    rewrite (create_application_run (with_user req payload) s payload postId
               eq_refl Hparse).
    destruct (spec_first_failure (jwt_userId payload) postId s) eqn:F;
      [ reflexivity |].
    unfold spec_first_failure in F.
    unfold prisma.jobSeekerProfile_findUnique_userId.
    destruct (find _ (jobSeekerProfiles s)) as [profile |]; [| discriminate ].
    exists profile. split; [ reflexivity | split; reflexivity ]. }
  split; [ exact Hrun |].
  intros Hnot.
  destruct (createApplicationSchema (req_body req)) as [e | postId] eqn:P.
  - now apply (create_application_invalid_run (with_user req payload) s e).
  - specialize (Hrun postId eq_refl).
    destruct (spec_first_failure (jwt_userId payload) postId s).
    + now rewrite Hrun.
    + destruct Hrun as [profile [_ [H201 _]]]. contradiction.
Qed.

End ApplicationCreation.

(** ** Status of a job posting *)

Section JobStatus.

Context {ext : Externals}.

Lemma existsb_eqb_In (status : string) (values : list string) :
  In status values -> existsb (String.eqb status) values = true.
Proof.
  intros Hin. apply existsb_exists. exists status.
  split; [ exact Hin | apply String.eqb_refl ].
Qed.

Lemma includes_accepts (values : list string) (status : string) :
  In status values -> includes values (JStr status) = Some status.
Proof.
  intros Hin. unfold includes, z_enum, z_string.
  now rewrite existsb_eqb_In.
Qed.

Lemma job_found_in s id shopId job :
  prisma.shopJobPost_findFirst id shopId s = Some job ->
  In job (shopJobPosts s) /\ post_id job = id /\ post_shopId job = shopId.
Proof.
  unfold prisma.shopJobPost_findFirst. intros H.
  apply find_some in H. destruct H as [Hin H].
  apply andb_true_iff in H. destruct H as [H1 H2].
  apply Z.eqb_eq in H1, H2. auto.
Qed.



(** A job that is missing, or that another shop owns: one response. *)
Lemma update_job_status_not_owned_run req s payload shop id status :
  req_user req = Some payload ->
  get_field "status" (req_body req) = JStr status ->
  In status job_statuses ->
  prisma.shop_findUnique_userId (jwt_userId payload) s = Some shop ->
  parseInt (req_params_id req) = Some id ->
  prisma.shopJobPost_findFirst id (shop_id shop) s = None ->
  update_job_status req s = (job_not_found_or_unauthorized, s).
Proof.
  intros Huser Hstatus Hin Hshop Hid Hjob. unfold job_statuses in Hin.
  unfold update_job_status. unfold_handler.
  rewrite Hstatus, (includes_accepts _ _ Hin), Huser, Hshop, Hid, Hjob.
  reflexivity.
Qed.


End JobStatus.

(** ** Status of an application *)

Section ApplicationStatus.

Context {ext : Externals}.

Lemma updateStatusSchema_accepts body status :
  is_object body = true ->
  get_field "status" body = JStr status ->
  In status application_statuses ->
  updateStatusSchema body = inr status.
Proof.
  intros Hobj Hfield Hin. unfold updateStatusSchema, z_enum, z_string.
  rewrite Hobj, Hfield. unfold application_statuses in Hin.
  now rewrite existsb_eqb_In.
Qed.

Lemma updateStatusSchema_error body e :
  updateStatusSchema body = inl e -> exists issues, e = ZodError issues.
Proof.
  unfold updateStatusSchema.
  destruct (negb (is_object body)).
  - intros H. inversion H. now eexists.
  - destruct (z_enum _ _); intros H; inversion H. now eexists.
Qed.

Lemma application_found_in s id a :
  prisma.application_findUnique id s = Some a ->
  In a (applications s) /\ app_id a = id.
Proof.
  unfold prisma.application_findUnique. intros H.
  apply find_some in H. destruct H as [Hin H]. apply Z.eqb_eq in H. auto.
Qed.

(** The handler on a request of the shop that owns the posting applied
    to: the status is written, whatever it was. *)
Lemma update_application_status_owner_run
    req s payload shop id application post status :
  req_user req = Some payload ->
  updateStatusSchema (req_body req) = inr status ->
  prisma.shop_findUnique_userId (jwt_userId payload) s = Some shop ->
  parseInt (req_params_id req) = Some id ->
  prisma.application_findUnique id s = Some application ->
  prisma.shopJobPost_findUnique (app_postId application) s = Some post ->
  post_shopId post = shop_id shop ->
  res_status (fst (update_application_status req s)) = 200
  /\ prisma.application_findUnique id (snd (update_application_status req s))
     = Some (mkApplication (app_id application) (app_seekerId application)
               (app_postId application) status).
Proof.
  intros Huser Hparse Hshop Hid Happ Hpost Hown.
  destruct (application_found_in _ _ _ Happ) as [Hain Haid].
  unfold update_application_status. unfold_handler.
  rewrite Hparse, Huser, Hshop, Hid, Happ, Hpost. cbv beta iota.
  rewrite Hown, Z.eqb_refl.
  cbn [negb].
  unfold prisma.application_update_status, prisma.on_applications.
  rewrite <- Haid.
  rewrite (update_where_found app_id _ application (applications s) Hain).
  cbn [option_map].
  assert (Hfind : prisma.application_findUnique (app_id application)
                    (set_applications
                       (fun _ =>
                          map (fun r => if app_id r =? app_id application
                                        then mkApplication (app_id r)
                                               (app_seekerId r) (app_postId r)
                                               status
                                        else r) (applications s)) s)
                  = Some (mkApplication (app_id application)
                            (app_seekerId application)
                            (app_postId application) status)).
  { unfold prisma.application_findUnique in *.
    cbn [applications set_applications].
    rewrite find_map_preserving.
    - rewrite <- Haid in Happ. rewrite Happ. cbn [option_map].
      now rewrite Z.eqb_refl.
    - intros y. destruct (app_id y =? app_id application) eqn:K; cbn;
        rewrite ?K; reflexivity. }
  rewrite Hfind. cbn [fst snd res_status]. split; [ reflexivity | exact Hfind ].
Qed.

Lemma update_application_status_invalid_run req s e :
  updateStatusSchema (req_body req) = inl e ->
  res_status (fst (update_application_status req s)) = 400
  /\ snd (update_application_status req s) = s.
Proof.
  intros Hparse. destruct (updateStatusSchema_error _ _ Hparse) as [l E].
  subst e. unfold update_application_status. unfold_handler.
  rewrite Hparse. split; reflexivity.
Qed.

(** An application that is missing. *)
Lemma update_application_status_missing_run req s payload shop id status :
  req_user req = Some payload ->
  updateStatusSchema (req_body req) = inr status ->
  prisma.shop_findUnique_userId (jwt_userId payload) s = Some shop ->
  parseInt (req_params_id req) = Some id ->
  prisma.application_findUnique id s = None ->
  update_application_status req s = (application_not_found, s).
Proof.
  intros Huser Hparse Hshop Hid Happ.
  unfold update_application_status. unfold_handler.
  rewrite Hparse, Huser, Hshop, Hid, Happ. reflexivity.
Qed.

(** An application to the posting of another shop. *)
Lemma update_application_status_foreign_run
    req s payload shop id application post status :
  req_user req = Some payload ->
  updateStatusSchema (req_body req) = inr status ->
  prisma.shop_findUnique_userId (jwt_userId payload) s = Some shop ->
  parseInt (req_params_id req) = Some id ->
  prisma.application_findUnique id s = Some application ->
  prisma.shopJobPost_findUnique (app_postId application) s = Some post ->
  post_shopId post <> shop_id shop ->
  update_application_status req s = (application_unauthorized, s).
Proof.
  intros Huser Hparse Hshop Hid Happ Hpost Hown.
  unfold update_application_status. unfold_handler.
  rewrite Hparse, Huser, Hshop, Hid, Happ, Hpost. cbv beta iota.
  apply Z.eqb_neq in Hown. rewrite Hown. reflexivity.
Qed.

(** The withdrawal of the seeker's own application deletes the row. *)
Lemma withdraw_application_run req s payload profile id application :
  req_user req = Some payload ->
  prisma.jobSeekerProfile_findUnique_userId (jwt_userId payload) s
  = Some profile ->
  parseInt (req_params_id req) = Some id ->
  prisma.application_findFirst id (jsp_id profile) s = Some application ->
  withdraw_application req s
  = (mkResponse 200 (json_message "Application withdrawn successfully"),
     set_applications
       (fun _ => filter (fun r => negb (app_id r =? id)) (applications s)) s).
Proof.
  intros Huser Hprofile Hid Happ.
  unfold withdraw_application. unfold_handler.
  rewrite Huser, Hprofile, Hid, Happ.
  unfold prisma.application_delete, prisma.on_applications,
    prisma.delete_where.
  replace (existsb (fun r => app_id r =? id) (applications s)) with true;
    [ reflexivity |].
  symmetry. apply existsb_exists. exists application.
  unfold prisma.application_findFirst in Happ. apply find_some in Happ.
  destruct Happ as [Hin H]. apply andb_true_iff in H. tauto.
Qed.

End ApplicationStatus.

Section StatusTheorems.

Context {ext : Externals}.

(** C3, as the code has it: for the shop that owns the posting applied to,
    the status update accepts each of pending, accepted, rejected and
    withdrawn whatever the current status of the application, answers 200
    and sets the status; a body that fails the schema is answered 400 and
    the store is left as it was; and the withdrawal by the applying seeker
    deletes the application instead of giving it the status withdrawn. *)
Theorem application_status_update_any_transition
    (pe : ProcessEnv) (env : Env) (req : Request) (s : Store)
    (token : string) (payload : JwtPayload) :
  req_authorization req = Some ("Bearer " ++ token) ->
  verifyToken pe (env_now env) token = inr payload ->
  jwt_roleId payload = ROLES.SHOP_OWNER ->
  (forall shop id application post status,
      is_object (req_body req) = true ->
      get_field "status" (req_body req) = JStr status ->
      In status application_statuses ->
      prisma.shop_findUnique_userId (jwt_userId payload) s = Some shop ->
      parseInt (req_params_id req) = Some id ->
      prisma.application_findUnique id s = Some application ->
      prisma.shopJobPost_findUnique (app_postId application) s = Some post ->
      post_shopId post = shop_id shop ->
      res_status (fst (patch_application_status pe env req s)) = 200
      /\ prisma.application_findUnique id
           (snd (patch_application_status pe env req s))
         = Some (mkApplication (app_id application)
                   (app_seekerId application) (app_postId application)
                   status))
  /\ (forall e,
        updateStatusSchema (req_body req) = inl e ->
        res_status (fst (patch_application_status pe env req s)) = 400
        /\ snd (patch_application_status pe env req s) = s)
  /\ (forall req' token' seeker profile id application,
        req_authorization req' = Some ("Bearer " ++ token') ->
        verifyToken pe (env_now env) token' = inr seeker ->
        jwt_roleId seeker = ROLES.JOB_SEEKER ->
        prisma.jobSeekerProfile_findUnique_userId (jwt_userId seeker) s
        = Some profile ->
        parseInt (req_params_id req') = Some id ->
        prisma.application_findFirst id (jsp_id profile) s
        = Some application ->
        fst (delete_application pe env req' s)
        = mkResponse 200 (json_message "Application withdrawn successfully")
        /\ (forall a,
              In a (applications (snd (delete_application pe env req' s))) ->
              app_id a <> id)).
Proof.
  intros Hhead Hverify Hrole. unfold patch_application_status.
  rewrite (route_authorized pe (env_now env) ROLES.SHOP_OWNER
             update_application_status req s token payload Hhead Hverify
             Hrole).
  split; [| split ].
  - intros shop id application post status Hobj Hfield Hin Hshop Hid Happ
      Hpost Hown.
    apply (update_application_status_owner_run (with_user req payload) s
             payload shop id application post status); try assumption.
    + reflexivity.
    + now apply updateStatusSchema_accepts.
  - intros e He.
    now apply (update_application_status_invalid_run
                 (with_user req payload) s e).
  - intros req' token' seeker profile id application Hhead' Hverify' Hrole'
      Hprofile Hid Happ.
    unfold delete_application.
    rewrite (route_authorized pe (env_now env) ROLES.JOB_SEEKER
               withdraw_application req' s token' seeker Hhead' Hverify'
               Hrole').
    rewrite (withdraw_application_run (with_user req' seeker) s seeker profile
               id application eq_refl Hprofile Hid Happ).
    cbn [fst snd applications set_applications]. split; [ reflexivity |].
    intros a Ha. apply filter_In in Ha. destruct Ha as [_ Ha].
    apply negb_true_iff, Z.eqb_neq in Ha. exact Ha.
Qed.

(** A job of another shop is reported as a missing job. *)
Lemma job_of_other_shop_reported_as_missing
    pe env foreign missing s token payload shop status id id' :
  req_authorization foreign = Some ("Bearer " ++ token) ->
  req_authorization missing = Some ("Bearer " ++ token) ->
  verifyToken pe (env_now env) token = inr payload ->
  jwt_roleId payload = ROLES.SHOP_OWNER ->
  get_field "status" (req_body foreign) = JStr status ->
  get_field "status" (req_body missing) = JStr status ->
  In status job_statuses ->
  prisma.shop_findUnique_userId (jwt_userId payload) s = Some shop ->
  parseInt (req_params_id foreign) = Some id ->
  (forall j, In j (shopJobPosts s) -> post_id j = id ->
             post_shopId j <> shop_id shop) ->
  parseInt (req_params_id missing) = Some id' ->
  (forall j, In j (shopJobPosts s) -> post_id j <> id') ->
  patch_job_status pe env foreign s = (job_not_found_or_unauthorized, s)
  /\ patch_job_status pe env missing s = (job_not_found_or_unauthorized, s).
Proof.
  intros Hf Hm Hverify Hrole Hsf Hsm Hin Hshop Hid Hforeign Hid' Hmissing.
  unfold patch_job_status.
  rewrite (route_authorized pe (env_now env) ROLES.SHOP_OWNER
             update_job_status foreign s token payload Hf Hverify Hrole).
  rewrite (route_authorized pe (env_now env) ROLES.SHOP_OWNER
             update_job_status missing s token payload Hm Hverify Hrole).
  split.
  - apply (update_job_status_not_owned_run (with_user foreign payload) s
             payload shop id status); try assumption; [ reflexivity |].
    unfold prisma.shopJobPost_findFirst. apply find_none_iff.
    intros j Hj. destruct (post_id j =? id) eqn:K; [| reflexivity ].
    apply Z.eqb_eq in K. cbn [andb]. apply Z.eqb_neq. now apply Hforeign.
  - apply (update_job_status_not_owned_run (with_user missing payload) s
             payload shop id' status); try assumption; [ reflexivity |].
    unfold prisma.shopJobPost_findFirst. apply find_none_iff.
    intros j Hj. specialize (Hmissing j Hj). apply Z.eqb_neq in Hmissing.
    now rewrite Hmissing.
Qed.

(** C4, where the code departs from it: to the owner of a shop, the status
    update of an application to another shop's posting is answered 403
    "Unauthorized to update this application", and that of an application
    that does not exist 404 "Application not found"; the two responses
    differ in status and in body. *)
Theorem application_of_other_shop_told_apart
    (pe : ProcessEnv) (env : Env) (foreign missing : Request) (s : Store)
    (token : string) (payload : JwtPayload) (shop : Shop) (status : string)
    (id id' : Z) (application : Application) (post : ShopJobPost) :
  req_authorization foreign = Some ("Bearer " ++ token) ->
  req_authorization missing = Some ("Bearer " ++ token) ->
  verifyToken pe (env_now env) token = inr payload ->
  jwt_roleId payload = ROLES.SHOP_OWNER ->
  updateStatusSchema (req_body foreign) = inr status ->
  updateStatusSchema (req_body missing) = inr status ->
  prisma.shop_findUnique_userId (jwt_userId payload) s = Some shop ->
  parseInt (req_params_id foreign) = Some id ->
  prisma.application_findUnique id s = Some application ->
  prisma.shopJobPost_findUnique (app_postId application) s = Some post ->
  post_shopId post <> shop_id shop ->
  parseInt (req_params_id missing) = Some id' ->
  prisma.application_findUnique id' s = None ->
  patch_application_status pe env foreign s = (application_unauthorized, s)
  /\ patch_application_status pe env missing s = (application_not_found, s)
  /\ res_status application_unauthorized <> res_status application_not_found
  /\ res_body application_unauthorized <> res_body application_not_found.
Proof.
  intros Hf Hm Hverify Hrole Hpf Hpm Hshop Hid Happ Hpost Hown Hid' Hnone.
  unfold patch_application_status.
  rewrite (route_authorized pe (env_now env) ROLES.SHOP_OWNER
             update_application_status foreign s token payload Hf Hverify
             Hrole).
  rewrite (route_authorized pe (env_now env) ROLES.SHOP_OWNER
             update_application_status missing s token payload Hm Hverify
             Hrole).
  repeat split.
  - now apply (update_application_status_foreign_run
                 (with_user foreign payload) s payload shop id application
                 post status).
  - now apply (update_application_status_missing_run
                 (with_user missing payload) s payload shop id' status).
  - discriminate.
  - discriminate.
Qed.

(** C8, as the code has it: a token whose signature does not match the key
    and a token at or past its expiry make [verifyToken] fail with one and
    the same error, "Invalid or expired token", whatever [jwt.verify] threw;
    and [authenticate] answers both 401 with that message. *)
Theorem verifyToken_one_error_for_both_causes
    (pe : ProcessEnv) (now : Z) (forged expired : string) (message : string) :
  jwt_verify forged (JWT_SECRET pe) now = inl (JsonWebTokenError message) ->
  jwt_verify expired (JWT_SECRET pe) now = inl TokenExpiredError ->
  verifyToken pe now forged = inl invalid_or_expired_token
  /\ verifyToken pe now expired = inl invalid_or_expired_token
  /\ (forall req token,
        (token = forged \/ token = expired) ->
        req_authorization req = Some ("Bearer " ++ token) ->
        authenticate pe now req = inl unauthenticated).
Proof.
  intros Hforged Hexpired.
  assert (F : verifyToken pe now forged = inl invalid_or_expired_token)
    by (unfold verifyToken; now rewrite Hforged).
  assert (E : verifyToken pe now expired = inl invalid_or_expired_token)
    by (unfold verifyToken; now rewrite Hexpired).
  split; [ exact F | split; [ exact E |] ].
  intros req token Htoken Hhead. unfold authenticate. rewrite Hhead.
  cbn [String.append]. cbn.
  replace (prefix "" token) with true by (now destruct token).
  cbn [negb]. rewrite Nat.sub_0_r, substring_all.
  destruct Htoken; subst token; [ rewrite F | rewrite E ]; reflexivity.
Qed.

End StatusTheorems.

(** ** The properties on the example store *)

Module Runs.
Import Example.

(** C9 on the draw 1/3 is [generateOTP_six_digits_witness] above. *)

Lemma login_deactivated_witness :
  post_login pe env (login_request "gone@x.com" "secret4") store
  = (account_deactivated, store)
  /\ (forall compare : string -> string -> bool,
        @post_login (with_compare compare) pe env
          (login_request "gone@x.com" "secret4") store
        = (account_deactivated, store))
  /\ res_status account_deactivated = 403
  /\ res_status invalid_credentials = 401
  /\ account_deactivated <> invalid_credentials.
Proof.
  apply (@login_deactivated_rejected_before_password externals pe env
           (login_request "gone@x.com" "secret4") store
           (mkLoginData "gone@x.com" "secret4")
           (mkUser 4 "gone@x.com" "s4:secret4" 1 false));
    reflexivity.
Defined.

Lemma forgot_password_witness :
  fst (post_forgot_password env (forgot_request "a@x.com") store)
  = otp_sent "550000"
  /\ fst (post_forgot_password env (forgot_request "nobody@x.com") store)
     = otp_maybe_sent
  /\ fst (post_forgot_password env (forgot_request "a@x.com") store)
     <> fst (post_forgot_password env (forgot_request "nobody@x.com") store).
Proof.
  split; [ reflexivity | split; [ reflexivity |] ].
  apply (@forgot_password_answers_differ externals env
           (forgot_request "a@x.com") (forgot_request "nobody@x.com") store
           "a@x.com" "nobody@x.com"
           (mkUser 1 "a@x.com" "s1:secret1" 1 true));
    reflexivity.
Defined.

Lemma reset_password_witness :
  fst (post_reset_password env (reset_request "a@x.com" "123456" "abcdef")
         store) = password_reset_successful
  /\ password_is "a@x.com" "salt:abcdef"
       (snd (post_reset_password env
               (reset_request "a@x.com" "123456" "abcdef") store))
  /\ reset_used 1
       (snd (post_reset_password env
               (reset_request "a@x.com" "123456" "abcdef") store)).
Proof.
  destruct (@reset_password_all_or_nothing externals env
              (reset_request "a@x.com" "123456" "abcdef") store
              (mkResetPasswordData "a@x.com" "123456" "abcdef")
              (mkUser 1 "a@x.com" "s1:secret1" 1 true)
              (mkPasswordReset 1 1 "123456" 1600000 false)
              eq_refl eq_refl eq_refl) as [[H | [H _]] _].
  - exact H.
  - discriminate H.
Defined.



Lemma create_application_witness :
  post_applications pe env (apply_request new_seeker_token 1) store
  = (creation_error_response ProfileRequired, store)
  /\ post_applications pe env (apply_request seeker_token 9) store
     = (creation_error_response NotFound, store)
  /\ post_applications pe env (apply_request seeker_token 2) store
     = (creation_error_response JobClosed, store)
  /\ post_applications pe env (apply_request seeker_token 3) store
     = (creation_error_response DuplicateApplication, store).
Proof.
  split; [| split; [| split ] ].
  - apply (proj1 (@create_application_first_failure_wins externals pe env
                    (apply_request new_seeker_token 1) store new_seeker_token
                    (mkJwtPayload 5 "new@x.com" 1) eq_refl eq_refl eq_refl)
             1 eq_refl).
  - apply (proj1 (@create_application_first_failure_wins externals pe env
                    (apply_request seeker_token 9) store seeker_token
                    (mkJwtPayload 1 "a@x.com" 1) eq_refl eq_refl eq_refl)
             9 eq_refl).
  - apply (proj1 (@create_application_first_failure_wins externals pe env
                    (apply_request seeker_token 2) store seeker_token
                    (mkJwtPayload 1 "a@x.com" 1) eq_refl eq_refl eq_refl)
             2 eq_refl).
  - apply (proj1 (@create_application_first_failure_wins externals pe env
                    (apply_request seeker_token 3) store seeker_token
                    (mkJwtPayload 1 "a@x.com" 1) eq_refl eq_refl eq_refl)
             3 eq_refl).
Defined.



(** The owner of the posting sets an accepted application to withdrawn:
    the transition is not among the specification's, the update is answered
    200 and the application is withdrawn. *)
Lemma accepted_application_withdrawn_by_shop :
  spec_application_transition "accepted" "withdrawn" = false
  /\ prisma.application_findUnique 1 store
     = Some (mkApplication 1 1 3 "accepted")
  /\ fst (patch_application_status pe env
            (status_request shop2_token "1" "withdrawn") store)
     = mkResponse 200
         (JObj [("message", JStr "Application status updated");
                ("application",
                 application_json (mkApplication 1 1 3 "withdrawn"))])
  /\ prisma.application_findUnique 1
       (snd (patch_application_status pe env
               (status_request shop2_token "1" "withdrawn") store))
     = Some (mkApplication 1 1 3 "withdrawn").
Proof. split; [| split; [| split ] ]; reflexivity. Qed.

Lemma application_status_update_witness :
  (res_status
     (fst (patch_application_status pe env
             (status_request shop2_token "1" "pending") store)) = 200
   /\ prisma.application_findUnique 1
        (snd (patch_application_status pe env
                (status_request shop2_token "1" "pending") store))
      = Some (mkApplication 1 1 3 "pending"))
  /\ (res_status
        (fst (patch_application_status pe env
                (status_request shop2_token "1" "hired") store)) = 400
      /\ snd (patch_application_status pe env
                (status_request shop2_token "1" "hired") store) = store)
  /\ (fst (delete_application pe env (request seeker_token "1" JNull) store)
      = mkResponse 200 (json_message "Application withdrawn successfully")
      /\ (forall a,
            In a (applications
                    (snd (delete_application pe env
                            (request seeker_token "1" JNull) store))) ->
            app_id a <> 1)).
Proof.
  split; [| split ].
  - apply (proj1 (@application_status_update_any_transition externals pe env
                    (status_request shop2_token "1" "pending") store
                    shop2_token (mkJwtPayload 3 "shop2@x.com" 2)
                    eq_refl eq_refl eq_refl)
             (mkShop 2 3) 1 (mkApplication 1 1 3 "accepted")
             (mkShopJobPost 3 2 "open") "pending");
      try reflexivity.
    simpl. tauto.
  - apply (proj1 (proj2 (@application_status_update_any_transition externals
                           pe env (status_request shop2_token "1" "hired")
                           store shop2_token (mkJwtPayload 3 "shop2@x.com" 2)
                           eq_refl eq_refl eq_refl))
             (ZodError ["status"])).
    reflexivity.
  - apply (proj2 (proj2 (@application_status_update_any_transition externals
                           pe env (status_request shop2_token "1" "pending")
                           store shop2_token (mkJwtPayload 3 "shop2@x.com" 2)
                           eq_refl eq_refl eq_refl))
             (request seeker_token "1" JNull) seeker_token
             (mkJwtPayload 1 "a@x.com" 1) (mkJobSeekerProfile 1 1) 1
             (mkApplication 1 1 3 "accepted"));
      reflexivity.
Defined.

Lemma application_of_other_shop_witness :
  patch_application_status pe env (status_request shop1_token "1" "rejected")
    store = (application_unauthorized, store)
  /\ patch_application_status pe env
       (status_request shop1_token "9" "rejected") store
     = (application_not_found, store)
  /\ res_status application_unauthorized <> res_status application_not_found
  /\ res_body application_unauthorized <> res_body application_not_found.
Proof.
  apply (@application_of_other_shop_told_apart externals pe env
           (status_request shop1_token "1" "rejected")
           (status_request shop1_token "9" "rejected") store shop1_token
           (mkJwtPayload 2 "shop1@x.com" 2) (mkShop 1 2) "rejected" 1 9
           (mkApplication 1 1 3 "accepted") (mkShopJobPost 3 2 "open"));
    try reflexivity.
  discriminate.
Defined.

(** A token signed with another key and an expired token: [jwt.verify]
    throws two different errors, [verifyToken] one and the same. *)
Lemma verifyToken_forged_and_expired_alike :
  jwt_verify forged_token (JWT_SECRET pe) (env_now env)
  = inl (JsonWebTokenError "invalid signature")
  /\ jwt_verify expired_token (JWT_SECRET pe) (env_now env)
     = inl TokenExpiredError
  /\ verifyToken pe (env_now env) forged_token
     = verifyToken pe (env_now env) expired_token.
Proof. split; [| split ]; reflexivity. Qed.

Lemma verifyToken_one_error_witness :
  verifyToken pe (env_now env) forged_token = inl invalid_or_expired_token
  /\ verifyToken pe (env_now env) expired_token = inl invalid_or_expired_token
  /\ authenticate pe (env_now env) (request forged_token "" JNull)
     = inl unauthenticated
  /\ authenticate pe (env_now env) (request expired_token "" JNull)
     = inl unauthenticated.
Proof.
  destruct (@verifyToken_one_error_for_both_causes externals pe (env_now env)
              forged_token expired_token "invalid signature"
              eq_refl eq_refl) as [F [E A]].
  split; [ exact F | split; [ exact E | split ] ].
  - apply (A (request forged_token "" JNull) forged_token);
      [ now left | reflexivity ].
  - apply (A (request expired_token "" JNull) expired_token);
      [ now right | reflexivity ].
Defined.

End Runs.

(** * Further properties of the middleware and the handlers *)

(** ** The middleware *)

Section Middleware.

Context {ext : Externals}.

Lemma prefix_split (p h : string) :
  prefix p h = true ->
  h = p ++ substring (String.length p) (String.length h - String.length p) h.
Proof.
  revert h. induction p as [| a p IH]; intros h H.
  - cbn. now rewrite Nat.sub_0_r, substring_all.
  - destruct h as [| b h]; [ discriminate |].
    cbn [prefix] in H. destruct (ascii_dec a b) as [-> |]; [| discriminate ].
    cbn [String.length String.append substring Nat.sub].
    f_equal. now apply IH.
Qed.

Lemma authenticate_rejects_401 pe now req r :
  authenticate pe now req = inl r -> res_status r = 401.
Proof.
  unfold authenticate. destruct (req_authorization req) as [h |].
  - destruct (negb (prefix "Bearer " h)).
    + intros H. now inversion H.
    + destruct (verifyToken pe now _); intros H; now inversion H.
  - intros H. now inversion H.
Qed.

Lemma authenticate_passes pe now req req' :
  authenticate pe now req = inr req' ->
  exists token payload,
    req_authorization req = Some ("Bearer " ++ token)
    /\ verifyToken pe now token = inr payload
    /\ req' = with_user req payload.
Proof.
  unfold authenticate. destruct (req_authorization req) as [h |] eqn:Hh;
    [| discriminate ].
  destruct (prefix "Bearer " h) eqn:Hp; cbn [negb]; [| discriminate ].
  destruct (verifyToken pe now _) as [e | payload] eqn:Hv; [ discriminate |].
  intros H. inversion H. subst req'.
  exists (substring 7 (String.length h - 7) h), payload.
  split; [| split; [ exact Hv | reflexivity ] ].
  f_equal. exact (prefix_split "Bearer " h Hp).
Qed.

(** X1: [authenticate] passes a request on exactly when its Authorization
    header is "Bearer " followed by a token that [verifyToken] accepts, and
    then the request goes on with the payload of that token attached,
    whatever user the incoming request carried; every other request is
    answered 401. *)
Theorem authenticate_passes_iff
    (pe : ProcessEnv) (now : Z) (req req' : Request) :
  (authenticate pe now req = inr req' <->
   exists token payload,
     req_authorization req = Some ("Bearer " ++ token)
     /\ verifyToken pe now token = inr payload
     /\ req' = with_user req payload)
  /\ (forall r, authenticate pe now req = inl r -> res_status r = 401).
Proof.
  split; [| apply authenticate_rejects_401 ].
  split.
  - apply authenticate_passes.
  - intros [token [payload [Hh [Hv ->]]]].
    now apply (authenticate_bearer pe now req token payload).
Qed.

(** What the chain [authenticate, requireRole(roles)] does with a request:
    it hands it to the handler with the verified payload, or answers 403, or
    answers what [authenticate] answered; only the first runs the handler. *)
Lemma route_cases pe now roles handler req s :
  (exists token payload,
      req_authorization req = Some ("Bearer " ++ token)
      /\ verifyToken pe now token = inr payload
      /\ existsb (Z.eqb (jwt_roleId payload)) roles = true
      /\ route [authenticate pe now; requireRole roles] handler req s
         = handler (with_user req payload) s)
  \/ (exists payload,
        authenticate pe now req = inr (with_user req payload)
        /\ existsb (Z.eqb (jwt_roleId payload)) roles = false
        /\ route [authenticate pe now; requireRole roles] handler req s
           = (insufficient_permissions, s))
  \/ (exists r,
        authenticate pe now req = inl r
        /\ route [authenticate pe now; requireRole roles] handler req s
           = (r, s)).
Proof.
  cbn [route]. destruct (authenticate pe now req) as [r | req'] eqn:A.
  - right. right. exists r. split; reflexivity.
  - destruct (authenticate_passes pe now req req' A)
      as [token [payload [Hh [Hv ->]]]].
    unfold requireRole. cbn [req_user with_user].
    destruct (existsb (Z.eqb (jwt_roleId payload)) roles) eqn:R.
    + left. exists token, payload. rewrite R.
      split; [ exact Hh | split; [ exact Hv | split; reflexivity ] ].
    + right. left. exists payload. rewrite R.
      split; [ reflexivity | split; reflexivity ].
Qed.

(** X2: a request that [authenticate] rejects (no Authorization header, a
    header that does not start with "Bearer ", a token that does not verify)
    gets that 401 from each protected route, and the store is left as it
    was: no handler runs. *)
Theorem protected_routes_reject_unauthenticated
    (pe : ProcessEnv) (env : Env) (req : Request) (s : Store) (r : Response) :
  authenticate pe (env_now env) req = inl r ->
  res_status r = 401
  /\ post_applications pe env req s = (r, s)
  /\ patch_application_status pe env req s = (r, s)
  /\ delete_application pe env req s = (r, s)
  /\ patch_job_status pe env req s = (r, s).
Proof.
  intros A. split; [ exact (authenticate_rejects_401 _ _ _ _ A) |].
  unfold post_applications, patch_application_status, delete_application,
    patch_job_status. cbn [route]. rewrite A.
  split; [ reflexivity | split; [ reflexivity | split; reflexivity ] ].
Qed.

(** X3: a verified token of another role is answered 403 "Insufficient
    permissions" and the store is left as it was: who is not a job seeker
    cannot create or withdraw an application, who is not a shop owner cannot
    set the status of an application or of a posting. *)
Theorem other_role_is_forbidden
    (pe : ProcessEnv) (env : Env) (req : Request) (s : Store)
    (token : string) (payload : JwtPayload) :
  req_authorization req = Some ("Bearer " ++ token) ->
  verifyToken pe (env_now env) token = inr payload ->
  (jwt_roleId payload <> ROLES.JOB_SEEKER ->
   post_applications pe env req s = (insufficient_permissions, s)
   /\ delete_application pe env req s = (insufficient_permissions, s))
  /\ (jwt_roleId payload <> ROLES.SHOP_OWNER ->
      patch_application_status pe env req s = (insufficient_permissions, s)
      /\ patch_job_status pe env req s = (insufficient_permissions, s)).
Proof.
  intros Hh Hv.
  pose proof (authenticate_bearer pe (env_now env) req token payload Hh Hv)
    as A.
  unfold post_applications, patch_application_status, delete_application,
    patch_job_status. cbn [route]. rewrite A.
  unfold requireRole. cbn [req_user with_user existsb].
  split; intros Hrole; apply Z.eqb_neq in Hrole; rewrite Hrole;
    split; reflexivity.
Qed.

End Middleware.

(** ** Registration and login *)

Section Identity.

Context {ext : Externals}.


Lemma find_snoc_found {R : Type} (p : R -> bool) (rows : list R) (x y : R) :
  find p rows = Some y -> find p (rows ++ [x]) = Some y.
Proof.
  induction rows as [| z rows IH]; [ discriminate |].
  cbn [find app]. destruct (p z); [ trivial | exact IH ].
Qed.

Lemma find_snoc_new {R : Type} (p : R -> bool) (rows : list R) (x : R) :
  find p rows = None -> p x = true -> find p (rows ++ [x]) = Some x.
Proof.
  induction rows as [| z rows IH]; intros Hn Hx.
  - cbn. now rewrite Hx.
  - cbn [find app] in *. destruct (p z); [ discriminate | now apply IH ].
Qed.


(** The handler on a request that registers a new e-mail. *)
Lemma register_run pe env id req s data role :
  registerSchema (req_body req) = inr data ->
  prisma.user_findUnique_email (register_email data) s = None ->
  find (fun r => role_id r =? register_roleId data) (roles s) = Some role ->
  post_register pe env id req s
  = (mkResponse 201
       (JObj [("message", JStr "User registered successfully");
              ("user",
               JObj [("id", JNum id);
                     ("email", JStr (register_email data));
                     ("roleId", JNum (register_roleId data))]);
              ("token",
               JStr (generateToken pe (env_now env)
                       (mkJwtPayload id (register_email data)
                          (register_roleId data))))]),
     set_users
       (fun l =>
          (l ++ [mkUser id (register_email data)
                   (hashPassword (env_salt env) (register_password data))
                   (register_roleId data) true])%list) s).
Proof.
  intros Hparse Hfree Hrole. unfold post_register, user_create.
  unfold_handler. rewrite Hparse, Hfree. cbn [is_some].
  rewrite Hfree, Hrole. reflexivity.
Qed.


(** X4: a registration with an e-mail that an identity already has is
    answered 400 "Email already registered", whatever the password and the
    role asked for, and the store is left as it was. *)
Theorem register_refuses_taken_email
    (pe : ProcessEnv) (env : Env) (id : Z) (req : Request) (s : Store)
    (data : RegisterData) (user : User) :
  registerSchema (req_body req) = inr data ->
  prisma.user_findUnique_email (register_email data) s = Some user ->
  post_register pe env id req s = (email_already_registered, s).
Proof.
  intros Hparse Htaken. unfold post_register. unfold_handler.
  rewrite Hparse, Htaken. reflexivity.
Qed.



(** The handler on a login with the right password. *)
Lemma login_run pe env req s data user role :
  loginSchema (req_body req) = inr data ->
  prisma.user_findUnique_email (login_email data) s = Some user ->
  user_isActive user = true ->
  comparePassword (login_password data) (user_passwordHash user) = true ->
  prisma.user_role user s = Some role ->
  post_login pe env req s = (login_successful pe (env_now env) user role, s).
Proof.
  intros Hparse Hfind Hactive Hcmp Hrole. unfold post_login. unfold_handler.
  rewrite Hparse, Hfind, Hactive. cbn [negb]. rewrite Hcmp. cbn [negb].
  rewrite Hrole. reflexivity.
Qed.

(** X7: login reads the store and never writes it; and it answers 200 only
    to a body that passes the schema, for an identity with that e-mail that
    is active and whose digest [comparePassword] matches with the password
    sent; the token of the answer is signed for the id, e-mail and role of
    that identity. *)
Theorem login_reads_only_and_checks_password
    (pe : ProcessEnv) (env : Env) (req : Request) (s : Store) :
  snd (post_login pe env req s) = s
  /\ (res_status (fst (post_login pe env req s)) = 200 ->
      exists data user role,
        loginSchema (req_body req) = inr data
        /\ prisma.user_findUnique_email (login_email data) s = Some user
        /\ user_isActive user = true
        /\ comparePassword (login_password data) (user_passwordHash user)
           = true
        /\ fst (post_login pe env req s)
           = login_successful pe (env_now env) user role).
Proof.
  destruct (loginSchema (req_body req)) as [e | data] eqn:Hparse.
  { unfold post_login. unfold_handler. rewrite Hparse.
    destruct e; split; (reflexivity || discriminate). }
  destruct (prisma.user_findUnique_email (login_email data) s)
    as [user |] eqn:Hfind.
  2:{ rewrite (login_unknown_email pe env req s data Hparse Hfind).
      split; [ reflexivity | discriminate ]. }
  destruct (user_isActive user) eqn:Hactive.
  2:{ unfold post_login. unfold_handler. rewrite Hparse, Hfind, Hactive.
      split; [ reflexivity | discriminate ]. }
  destruct (comparePassword (login_password data) (user_passwordHash user))
    eqn:Hcmp.
  2:{ rewrite (login_wrong_password pe env req s data user Hparse Hfind
                 Hactive Hcmp).
      split; [ reflexivity | discriminate ]. }
  destruct (prisma.user_role user s) as [role |] eqn:Hrole.
  - rewrite (login_run pe env req s data user role Hparse Hfind Hactive Hcmp
               Hrole).
    split; [ reflexivity |]. intros _. exists data, user, role.
    repeat split; assumption.
  - unfold post_login. unfold_handler. rewrite Hparse, Hfind, Hactive.
    cbn [negb]. rewrite Hcmp. cbn [negb]. rewrite Hrole.
    split; [ reflexivity | discriminate ].
Qed.

(** X8: an identity that has registered can log in: after a registration
    answered 201, a login with the same e-mail and password, at any later
    request, is answered 200 with a token for the new identity, provided
    bcrypt accepts the password against the hash it made of it. *)
Theorem register_then_login
    (pe : ProcessEnv) (env env' : Env) (id : Z) (req req' : Request)
    (s : Store) (data : RegisterData) (role : Role) :
  registerSchema (req_body req) = inr data ->
  prisma.user_findUnique_email (register_email data) s = None ->
  find (fun r => role_id r =? register_roleId data) (roles s) = Some role ->
  bcrypt_compare (register_password data)
    (bcrypt_hash (env_salt env) (register_password data) 10) = true ->
  loginSchema (req_body req')
  = inr (mkLoginData (register_email data) (register_password data)) ->
  let s1 := snd (post_register pe env id req s) in
  res_status (fst (post_register pe env id req s)) = 201
  /\ post_login pe env' req' s1
     = (login_successful pe (env_now env')
          (mkUser id (register_email data)
             (hashPassword (env_salt env) (register_password data))
             (register_roleId data) true) role, s1).
Proof.
  intros Hparse Hfree Hrole Hbcrypt Hlogin s1. subst s1.
  rewrite (register_run pe env id req s data role Hparse Hfree Hrole).
  cbn [fst snd res_status]. split; [ reflexivity |].
  apply (login_run pe env' req' _
           (mkLoginData (register_email data) (register_password data)));
    try assumption; try reflexivity.
  unfold prisma.user_findUnique_email. cbn [users set_users login_email].
  apply find_snoc_new; [ exact Hfree |].
  cbn [user_email]. apply String.eqb_refl.
Qed.

End Identity.

(** ** The recovery protocol, request after request *)

Section RecoveryProtocol.

Context {ext : Externals}.





(** Every way a recovery request ends: the store as it was, or one fresh
    record appended for the identity of the e-mail. *)
Lemma forgot_password_cases env req s :
  snd (post_forgot_password env req s) = s
  \/ (exists email user,
        forgotPasswordSchema (req_body req) = inr email
        /\ prisma.user_findUnique_email email s = Some user
        /\ snd (post_forgot_password env req s)
           = snd (prisma.passwordReset_create (user_id user)
                    (generateOTP (env_random env))
                    (getOTPExpiry (env_now env)) s)).
Proof.
  destruct (forgotPasswordSchema (req_body req)) as [e | email] eqn:Hparse.
  { left. unfold post_forgot_password. unfold_handler. rewrite Hparse.
    destruct e; reflexivity. }
  destruct (prisma.user_findUnique_email email s) as [user |] eqn:Huser.
  - right. exists email, user.
    rewrite (forgot_password_known_run env req s email user Hparse Huser).
    repeat split; assumption.
  - left. now rewrite (forgot_password_unknown_run env req s email Hparse
                         Huser).
Qed.

(** Every way a reset ends: 200 with both writes committed, or another
    status with the store as it was. *)
Lemma reset_password_cases env req s :
  (exists data user pr,
      resetPasswordSchema (req_body req) = inr data
      /\ prisma.user_findUnique_email (reset_email data) s = Some user
      /\ prisma.passwordReset_findFirst (user_id user) (reset_otpCode data)
           (env_now env) s = Some pr
      /\ post_reset_password env req s
         = (password_reset_successful,
            reset_committed (user_id user)
              (hashPassword (env_salt env) (reset_newPassword data))
              (pr_id pr) s))
  \/ (res_status (fst (post_reset_password env req s)) <> 200
      /\ snd (post_reset_password env req s) = s).
Proof.
  destruct (resetPasswordSchema (req_body req)) as [e | data] eqn:Hparse.
  { right. unfold post_reset_password. unfold_handler. rewrite Hparse.
    destruct e; split; (discriminate || reflexivity). }
  destruct (prisma.user_findUnique_email (reset_email data) s)
    as [user |] eqn:Huser.
  2:{ right.
      rewrite (reset_password_unknown_email_run env req s data Hparse Huser).
      split; [ discriminate | reflexivity ]. }
  destruct (prisma.passwordReset_findFirst (user_id user)
              (reset_otpCode data) (env_now env) s) as [pr |] eqn:Hpr.
  2:{ right.
      rewrite (reset_password_no_match_run env req s data user Hparse Huser
                 Hpr).
      split; [ discriminate | reflexivity ]. }
  pose proof (reset_password_run env req s data user pr Hparse Huser Hpr)
    as Hrun.
  destruct (reset_fails env).
  - right. rewrite Hrun. split; [ discriminate | reflexivity ].
  - left. exists data, user, pr. repeat split; assumption.
Qed.

(** X9: a reset writes only when it answers 200: under every other answer
    (validation error, unknown e-mail, no matching code, a failure of the
    store in the transaction) the store is the one before the request. *)
Theorem reset_writes_only_on_200 (env : Env) (req : Request) (s : Store) :
  res_status (fst (post_reset_password env req s)) <> 200 ->
  snd (post_reset_password env req s) = s.
Proof.
  intros Hnot.
  destruct (reset_password_cases env req s)
    as [[data [user [pr [_ [_ [_ Hrun]]]]]] | [_ Hs]]; [| exact Hs ].
  rewrite Hrun in Hnot. cbn in Hnot. contradiction.
Qed.



End RecoveryProtocol.

Section RecoveryFrame.

Context {ext : Externals}.

(** The identity [u] with another digest. *)
Lemma committed_users s userId passwordHash resetId :
  users (reset_committed userId passwordHash resetId s)
  = map (fun u => if user_id u =? userId
                  then mkUser (user_id u) (user_email u) passwordHash
                         (user_roleId u) (user_isActive u)
                  else u) (users s).
Proof. reflexivity. Qed.

(** X12: after a reset answered 200, a login with the e-mail and the new
    password is answered 200 (for an active identity, bcrypt accepting the
    new password against the hash it made of it), and a login with a
    password bcrypt does not accept against the new digest is answered 401
    "Invalid email or password". *)
Theorem reset_then_login
    (pe : ProcessEnv) (env env' : Env) (req req' : Request) (s : Store)
    (data : ResetPasswordData) (user : User) (pr : PasswordReset)
    (role : Role) (password : string) :
  resetPasswordSchema (req_body req) = inr data ->
  prisma.user_findUnique_email (reset_email data) s = Some user ->
  prisma.passwordReset_findFirst (user_id user) (reset_otpCode data)
    (env_now env) s = Some pr ->
  env_fault env = None ->
  user_isActive user = true ->
  prisma.user_role user s = Some role ->
  loginSchema (req_body req') = inr (mkLoginData (reset_email data) password) ->
  let s1 := snd (post_reset_password env req s) in
  let user1 :=
    mkUser (user_id user) (user_email user)
      (hashPassword (env_salt env) (reset_newPassword data))
      (user_roleId user) true in
  (bcrypt_compare password
     (bcrypt_hash (env_salt env) (reset_newPassword data) 10) = true ->
   post_login pe env' req' s1
   = (login_successful pe (env_now env') user1 role, s1))
  /\ (bcrypt_compare password
        (bcrypt_hash (env_salt env) (reset_newPassword data) 10) = false ->
      post_login pe env' req' s1 = (invalid_credentials, s1)).
Proof.
  intros Hparse Huser Hpr Hfault Hactive Hrole Hlogin s1 user1.
  pose proof (reset_password_run env req s data user pr Hparse Huser Hpr)
    as Hrun.
  unfold reset_fails in Hrun. rewrite Hfault in Hrun.
  cbn [prisma.fault_at orb] in Hrun.
  subst s1. rewrite Hrun. cbn [snd].
  set (s1 := reset_committed _ _ _ s).
  assert (Huser1 : prisma.user_findUnique_email (reset_email data) s1
                   = Some user1).
  { unfold prisma.user_findUnique_email. subst s1.
    rewrite committed_users, find_map_preserving.
    - unfold prisma.user_findUnique_email in Huser. rewrite Huser.
      cbn [option_map]. rewrite Z.eqb_refl. subst user1.
      now rewrite Hactive.
    - intros y. destruct (user_id y =? user_id user); reflexivity. }
  split; intros Hcmp.
  - apply (login_run pe env' req' s1
             (mkLoginData (reset_email data) password) user1 role);
      try assumption; reflexivity.
  - apply (login_wrong_password pe env' req' s1
             (mkLoginData (reset_email data) password) user1);
      try assumption; reflexivity.
Qed.

(** X13: a recovery request leaves the identities as they were and every
    reset record in place: a code that matched before the request still
    matches after it, with the same record; codes requested earlier are not
    invalidated. *)
Theorem forgot_password_keeps_codes
    (env : Env) (req : Request) (s : Store) :
  users (snd (post_forgot_password env req s)) = users s
  /\ (forall r, In r (passwordResets s) ->
                In r (passwordResets (snd (post_forgot_password env req s))))
  /\ (forall userId otpCode now pr,
        prisma.passwordReset_findFirst userId otpCode now s = Some pr ->
        prisma.passwordReset_findFirst userId otpCode now
          (snd (post_forgot_password env req s)) = Some pr).
Proof.
  destruct (forgot_password_cases env req s)
    as [-> | [email [user [_ [_ ->]]]]].
  - split; [ reflexivity | split; trivial ].
  - unfold prisma.passwordReset_create, prisma.passwordReset_findFirst.
    cbn [snd users passwordResets bump_seq_passwordReset set_passwordResets].
    split; [ reflexivity | split ].
    + intros r Hr. apply in_or_app. now left.
    + intros userId otpCode now pr Hpr. now apply find_snoc_found.
Qed.

(** X14: a reset creates and deletes no identity and changes nothing of an
    identity but the digest; and it leaves as it was every identity whose
    id is not the id of the identity of the e-mail of the request. *)
Theorem reset_changes_one_digest
    (env : Env) (req : Request) (s : Store) :
  map (fun u => (user_id u, user_email u, user_roleId u, user_isActive u))
    (users (snd (post_reset_password env req s)))
  = map (fun u => (user_id u, user_email u, user_roleId u, user_isActive u))
      (users s)
  /\ (forall u,
        In u (users s) ->
        (forall data user,
            resetPasswordSchema (req_body req) = inr data ->
            prisma.user_findUnique_email (reset_email data) s = Some user ->
            user_id u <> user_id user) ->
        In u (users (snd (post_reset_password env req s)))).
Proof.
  destruct (reset_password_cases env req s)
    as [[data [user [pr [Hparse [Huser [_ Hrun]]]]]] | [_ ->]].
  2:{ split; [ reflexivity | trivial ]. }
  rewrite Hrun. cbn [snd]. rewrite committed_users. split.
  - rewrite map_map. apply map_ext. intros u.
    destruct (user_id u =? user_id user); reflexivity.
  - intros u Hin Hother. apply in_map_iff. exists u. split; [| exact Hin ].
    specialize (Hother data user Hparse Huser).
    apply Z.eqb_neq in Hother. now rewrite Hother.
Qed.

(** X15: a reset marks used the one record it matched: where the ids of
    the reset records are distinct, every other record is left as it was, so
    the other codes of the identity stay valid. *)
Theorem reset_consumes_one_record
    (env : Env) (req : Request) (s : Store) (r : PasswordReset) :
  NoDup (map pr_id (passwordResets s)) ->
  In r (passwordResets s) ->
  In r (passwordResets (snd (post_reset_password env req s)))
  \/ (exists data user,
        resetPasswordSchema (req_body req) = inr data
        /\ prisma.user_findUnique_email (reset_email data) s = Some user
        /\ prisma.passwordReset_findFirst (user_id user) (reset_otpCode data)
             (env_now env) s = Some r
        /\ res_status (fst (post_reset_password env req s)) = 200).
Proof.
  intros Hnodup Hin.
  destruct (reset_password_cases env req s)
    as [[data [user [pr [Hparse [Huser [Hpr Hrun]]]]]] | [_ ->]];
    [| now left ].
  destruct (reset_found_in _ _ _ _ _ Hpr) as [Hprin _].
  destruct (Z.eq_dec (pr_id r) (pr_id pr)) as [E | N].
  - right. exists data, user.
    assert (r = pr).
    { clear - Hnodup Hin Hprin E.
      induction (passwordResets s) as [| x l IH]; [ contradiction |].
      cbn [map] in Hnodup. inversion Hnodup as [| ? ? Hx Hl]; subst.
      destruct Hin as [-> | Hin], Hprin as [Hp | Hp].
      - exact Hp.
      - exfalso. apply Hx. rewrite E. now apply in_map.
      - subst x. exfalso. apply Hx. rewrite <- E. now apply in_map.
      - now apply IH. }
    subst r. rewrite Hrun. repeat split; assumption.
  - left. rewrite Hrun.
    cbn [snd reset_committed passwordResets set_passwordResets].
    apply in_map_iff. exists r. split; [| exact Hin ].
    apply Z.eqb_neq in N. now rewrite N.
Qed.

End RecoveryFrame.

(** ** The workflow routes, request after request *)

Section WorkflowCases.

Context {ext : Externals}.

Lemma NoDup_key_eq {R K : Type} (key : R -> K) (rows : list R) (x y : R) :
  NoDup (map key rows) -> In x rows -> In y rows -> key x = key y -> x = y.
Proof.
  induction rows as [| z rows IH]; intros Hn Hx Hy E; [ contradiction |].
  cbn [map] in Hn. inversion Hn as [| ? ? Hz Hrest]; subst.
  destruct Hx as [-> | Hx], Hy as [Hy | Hy].
  - exact Hy.
  - exfalso. apply Hz. rewrite E. now apply in_map.
  - subst z. exfalso. apply Hz. rewrite <- E. now apply in_map.
  - now apply IH.
Qed.



(** Every way the status handler of the applications ends. *)
Lemma update_application_status_cases req s :
  snd (update_application_status req s) = s
  \/ (exists payload shop id application post status,
        req_user req = Some payload
        /\ prisma.shop_findUnique_userId (jwt_userId payload) s = Some shop
        /\ prisma.application_findUnique id s = Some application
        /\ prisma.shopJobPost_findUnique (app_postId application) s
           = Some post
        /\ post_shopId post = shop_id shop
        /\ snd (update_application_status req s)
           = set_applications
               (fun _ =>
                  map (fun r => if app_id r =? id
                                then mkApplication (app_id r) (app_seekerId r)
                                       (app_postId r) status
                                else r) (applications s)) s).
Proof.
  unfold update_application_status. unfold_handler.
  destruct (updateStatusSchema (req_body req)) as [e | status];
    [ left; destruct e; reflexivity |].
  destruct (req_user req) as [payload |]; [| now left ].
  destruct (prisma.shop_findUnique_userId (jwt_userId payload) s)
    as [shop |] eqn:Hshop; [| now left ].
  destruct (parseInt (req_params_id req)) as [id |]; [| now left ].
  destruct (prisma.application_findUnique id s) as [application |] eqn:Happ;
    [| now left ].
  destruct (prisma.shopJobPost_findUnique (app_postId application) s)
    as [post |] eqn:Hpost; [| now left ].
  destruct (post_shopId post =? shop_id shop) eqn:Hown; cbn [negb];
    [| now left ].
  right. exists payload, shop, id, application, post, status.
  apply Z.eqb_eq in Hown.
  do 5 (split; [ first [ reflexivity | assumption ] |]).
  destruct (application_found_in _ _ _ Happ) as [Hin Hid].
  unfold prisma.application_update_status, prisma.on_applications.
  rewrite <- Hid.
  rewrite (update_where_found app_id _ application (applications s) Hin).
  cbn [option_map].
  match goal with
  | |- context [prisma.application_findUnique ?i ?st] =>
      destruct (prisma.application_findUnique i st)
  end; reflexivity.
Qed.

(** Every way the withdrawal handler ends. *)
Lemma withdraw_application_cases req s :
  snd (withdraw_application req s) = s
  \/ (exists payload profile id application,
        req_user req = Some payload
        /\ prisma.jobSeekerProfile_findUnique_userId (jwt_userId payload) s
           = Some profile
        /\ prisma.application_findFirst id (jsp_id profile) s
           = Some application
        /\ snd (withdraw_application req s)
           = set_applications
               (fun _ => filter (fun r => negb (app_id r =? id))
                           (applications s)) s).
Proof.
  destruct (req_user req) as [payload |] eqn:Huser.
  2:{ left. unfold withdraw_application. unfold_handler. now rewrite Huser. }
  destruct (prisma.jobSeekerProfile_findUnique_userId (jwt_userId payload) s)
    as [profile |] eqn:Hprofile.
  2:{ left. unfold withdraw_application. unfold_handler.
      now rewrite Huser, Hprofile. }
  destruct (parseInt (req_params_id req)) as [id |] eqn:Hid.
  2:{ left. unfold withdraw_application. unfold_handler.
      now rewrite Huser, Hprofile, Hid. }
  destruct (prisma.application_findFirst id (jsp_id profile) s)
    as [application |] eqn:Happ.
  2:{ left. unfold withdraw_application. unfold_handler.
      now rewrite Huser, Hprofile, Hid, Happ. }
  right. exists payload, profile, id, application.
  rewrite (withdraw_application_run req s payload profile id application
             Huser Hprofile Hid Happ).
  repeat split; assumption.
Qed.

(** Every way the status handler of the postings ends. *)
Lemma update_job_status_cases req s :
  snd (update_job_status req s) = s
  \/ (exists payload shop id job status,
        req_user req = Some payload
        /\ prisma.shop_findUnique_userId (jwt_userId payload) s = Some shop
        /\ prisma.shopJobPost_findFirst id (shop_id shop) s = Some job
        /\ includes ["open"; "closed"; "completed"]
             (get_field "status" (req_body req)) = Some status
        /\ snd (update_job_status req s)
           = set_shopJobPosts
               (fun _ =>
                  map (fun r => if post_id r =? id
                                then mkShopJobPost (post_id r) (post_shopId r)
                                       status
                                else r) (shopJobPosts s)) s).
Proof.
  unfold update_job_status. unfold_handler.
  destruct (includes _ (get_field "status" (req_body req))) as [status |];
    [| now left ].
  destruct (req_user req) as [payload |]; [| now left ].
  destruct (prisma.shop_findUnique_userId (jwt_userId payload) s)
    as [shop |] eqn:Hshop; [| now left ].
  destruct (parseInt (req_params_id req)) as [id |]; [| now left ].
  destruct (prisma.shopJobPost_findFirst id (shop_id shop) s) as [job |]
    eqn:Hjob; [| now left ].
  right. exists payload, shop, id, job, status.
  do 4 (split; [ first [ reflexivity | assumption ] |]).
  destruct (job_found_in _ _ _ _ Hjob) as [Hin [Hid _]].
  unfold prisma.shopJobPost_update_status, prisma.on_shopJobPosts.
  rewrite <- Hid.
  rewrite (update_where_found post_id _ job (shopJobPosts s) Hin).
  cbn [option_map].
  match goal with
  | |- context [prisma.shopJobPost_findUnique ?i ?st] =>
      destruct (prisma.shopJobPost_findUnique i st)
  end; reflexivity.
Qed.

End WorkflowCases.

Section Workflow.

Context {ext : Externals}.


(** X17: a shop owner cannot change an application to another shop's
    posting: where the ids of the applications are distinct, whatever the
    request to [PATCH /api/applications/:id/status], an application whose
    posting does not belong to the shop of the caller is left as it was. *)
Theorem application_status_update_spares_other_shops
    (pe : ProcessEnv) (env : Env) (req : Request) (s : Store)
    (a : Application) :
  NoDup (map app_id (applications s)) ->
  In a (applications s) ->
  (forall token payload,
      req_authorization req = Some ("Bearer " ++ token) ->
      verifyToken pe (env_now env) token = inr payload ->
      ~ application_of_shop_of (jwt_userId payload) s a) ->
  In a (applications (snd (patch_application_status pe env req s))).
Proof.
  intros Hids Hin Hother. unfold patch_application_status.
  destruct (route_cases pe (env_now env) [ROLES.SHOP_OWNER]
              update_application_status req s)
    as [[token [payload [Hh [Hv [_ ->]]]]] | [[p [_ [_ ->]]] | [r [_ ->]]]];
    try exact Hin.
  specialize (Hother token payload Hh Hv).
  destruct (update_application_status_cases (with_user req payload) s)
    as [-> | [p [shop [id [b [post [status
               [Hp [Hshop [Hb [Hpost [Hown ->]]]]]]]]]]]]; [ exact Hin |].
  cbn [req_user with_user] in Hp. inversion Hp; subst p.
  cbn [snd applications set_applications].
  apply in_map_iff. exists a. split; [| exact Hin ].
  destruct (app_id a =? id) eqn:E; [| reflexivity ].
  exfalso. apply Hother.
  destruct (application_found_in _ _ _ Hb) as [Hbin Hbid].
  apply Z.eqb_eq in E.
  assert (a = b)
    by (apply (NoDup_key_eq app_id (applications s)); congruence).
  subst b. exists shop, post. repeat split; assumption.
Qed.

(** X18: a shop owner cannot change the posting of another shop: where the
    ids of the postings are distinct, whatever the request to
    [PATCH /api/jobs/:id/status], a posting that does not belong to the shop
    of the caller is left as it was. *)
Theorem job_status_update_spares_other_shops
    (pe : ProcessEnv) (env : Env) (req : Request) (s : Store)
    (j : ShopJobPost) :
  NoDup (map post_id (shopJobPosts s)) ->
  In j (shopJobPosts s) ->
  (forall token payload,
      req_authorization req = Some ("Bearer " ++ token) ->
      verifyToken pe (env_now env) token = inr payload ->
      ~ job_of_shop_of (jwt_userId payload) s j) ->
  In j (shopJobPosts (snd (patch_job_status pe env req s))).
Proof.
  intros Hids Hin Hother. unfold patch_job_status.
  destruct (route_cases pe (env_now env) [ROLES.SHOP_OWNER]
              update_job_status req s)
    as [[token [payload [Hh [Hv [_ ->]]]]] | [[p [_ [_ ->]]] | [r [_ ->]]]];
    try exact Hin.
  specialize (Hother token payload Hh Hv).
  destruct (update_job_status_cases (with_user req payload) s)
    as [-> | [p [shop [id [job [status [Hp [Hshop [Hjob [_ ->]]]]]]]]]];
    [ exact Hin |].
  cbn [req_user with_user] in Hp. inversion Hp; subst p.
  cbn [snd shopJobPosts set_shopJobPosts].
  apply in_map_iff. exists j. split; [| exact Hin ].
  destruct (post_id j =? id) eqn:E; [| reflexivity ].
  exfalso. apply Hother.
  destruct (job_found_in _ _ _ _ Hjob) as [Hjin [Hjid Hjshop]].
  apply Z.eqb_eq in E.
  assert (j = job)
    by (apply (NoDup_key_eq post_id (shopJobPosts s)); congruence).
  subst job. exists shop. split; assumption.
Qed.

(** X19: a job seeker cannot withdraw the application of another seeker:
    where the ids of the applications are distinct, whatever the request to
    [DELETE /api/applications/:id], an application that is not one of the
    seeker profile of the caller is left in place. *)
Theorem withdrawal_spares_other_seekers
    (pe : ProcessEnv) (env : Env) (req : Request) (s : Store)
    (a : Application) :
  NoDup (map app_id (applications s)) ->
  In a (applications s) ->
  (forall token payload,
      req_authorization req = Some ("Bearer " ++ token) ->
      verifyToken pe (env_now env) token = inr payload ->
      ~ application_of_seeker_of (jwt_userId payload) s a) ->
  In a (applications (snd (delete_application pe env req s))).
Proof.
  intros Hids Hin Hother. unfold delete_application.
  destruct (route_cases pe (env_now env) [ROLES.JOB_SEEKER]
              withdraw_application req s)
    as [[token [payload [Hh [Hv [_ ->]]]]] | [[p [_ [_ ->]]] | [r [_ ->]]]];
    try exact Hin.
  specialize (Hother token payload Hh Hv).
  destruct (withdraw_application_cases (with_user req payload) s)
    as [-> | [p [profile [id [b [Hp [Hprofile [Hb ->]]]]]]]]; [ exact Hin |].
  cbn [req_user with_user] in Hp. inversion Hp; subst p.
  cbn [snd applications set_applications].
  apply filter_In. split; [ exact Hin |].
  destruct (app_id a =? id) eqn:E; [| reflexivity ].
  exfalso. apply Hother.
  unfold prisma.application_findFirst in Hb. apply find_some in Hb.
  destruct Hb as [Hbin Hb]. apply andb_true_iff in Hb.
  destruct Hb as [Hbid Hbseeker]. apply Z.eqb_eq in Hbid, Hbseeker, E.
  assert (a = b)
    by (apply (NoDup_key_eq app_id (applications s)); congruence).
  subst b. exists profile. split; assumption.
Qed.

End Workflow.

Section WorkflowSequences.

Context {ext : Externals}.

Lemma filter_all {R : Type} (p : R -> bool) (rows : list R) :
  (forall x, In x rows -> p x = true) -> filter p rows = rows.
Proof.
  induction rows as [| z rows IH]; intros H; [ reflexivity |].
  cbn [filter]. rewrite (H z (or_introl eq_refl)). f_equal.
  apply IH. intros x Hx. apply H. now right.
Qed.

(** The store after an application that passed the four checks. *)
Lemma create_application_store req s payload postId :
  req_user req = Some payload ->
  createApplicationSchema (req_body req) = inr postId ->
  spec_first_failure (jwt_userId payload) postId s = None ->
  exists profile job,
    prisma.jobSeekerProfile_findUnique_userId (jwt_userId payload) s
    = Some profile
    /\ prisma.shopJobPost_findUnique postId s = Some job
    /\ post_status job = "open"
    /\ res_status (fst (create_application req s)) = 201
    /\ snd (create_application req s)
       = bump_seq_application
           (set_applications
              (fun l =>
                 (l ++ [mkApplication (seq_application s) (jsp_id profile)
                          postId "pending"])%list) s).
Proof.
  intros Huser Hparse Hnone.
  rewrite (create_application_run req s payload postId Huser Hparse), Hnone.
  unfold spec_first_failure in Hnone.
  unfold prisma.jobSeekerProfile_findUnique_userId,
    prisma.shopJobPost_findUnique.
  destruct (find _ (jobSeekerProfiles s)) as [profile |]; [| discriminate ].
  destruct (find _ (shopJobPosts s)) as [job |]; [| discriminate ].
  destruct (post_status job =? "open")%string eqn:Hopen; cbn [negb] in Hnone;
    [| discriminate ].
  exists profile, job. apply String.eqb_eq in Hopen.
  repeat split; assumption.
Qed.

(** X20: a second application of a seeker to the same posting is refused:
    after an application answered 201, the same seeker applying to the same
    posting is answered 400 "You have already applied to this job" and the
    store is left as it was. *)
Theorem apply_twice_is_duplicate
    (pe : ProcessEnv) (env env' : Env) (req req' : Request) (s : Store)
    (token token' : string) (payload payload' : JwtPayload) (postId : Z) :
  req_authorization req = Some ("Bearer " ++ token) ->
  verifyToken pe (env_now env) token = inr payload ->
  jwt_roleId payload = ROLES.JOB_SEEKER ->
  createApplicationSchema (req_body req) = inr postId ->
  spec_first_failure (jwt_userId payload) postId s = None ->
  req_authorization req' = Some ("Bearer " ++ token') ->
  verifyToken pe (env_now env') token' = inr payload' ->
  jwt_roleId payload' = ROLES.JOB_SEEKER ->
  jwt_userId payload' = jwt_userId payload ->
  createApplicationSchema (req_body req') = inr postId ->
  let s1 := snd (post_applications pe env req s) in
  res_status (fst (post_applications pe env req s)) = 201
  /\ post_applications pe env' req' s1
     = (creation_error_response DuplicateApplication, s1).
Proof.
  intros Hh Hv Hrole Hparse Hnone Hh' Hv' Hrole' Hsame Hparse' s1. subst s1.
  unfold post_applications.
  rewrite (route_authorized pe (env_now env) ROLES.JOB_SEEKER
             create_application req s token payload Hh Hv Hrole).
  destruct (create_application_store (with_user req payload) s payload postId
              eq_refl Hparse Hnone)
    as [profile [job [Hprofile [Hjob [Hopen [H201 ->]]]]]].
  split; [ exact H201 |].
  set (s1 := bump_seq_application _).
  rewrite (route_authorized pe (env_now env') ROLES.JOB_SEEKER
             create_application req' s1 token' payload' Hh' Hv' Hrole').
  rewrite (create_application_run (with_user req' payload') s1 payload' postId
             eq_refl Hparse').
  unfold spec_first_failure. rewrite Hsame.
  unfold prisma.jobSeekerProfile_findUnique_userId,
    prisma.shopJobPost_findUnique in Hprofile, Hjob.
  subst s1.
  cbn [jobSeekerProfiles shopJobPosts applications bump_seq_application
       set_applications].
  rewrite Hprofile, Hjob, Hopen. cbn [String.eqb Ascii.eqb Bool.eqb negb].
  rewrite existsb_app. cbn [existsb app_seekerId app_postId].
  now rewrite !Z.eqb_refl, orb_true_r.
Qed.

(** X21: an application and its withdrawal undo each other: where the ids
    of the applications are below the sequence, after an application
    answered 201 the seeker's [DELETE] of the new id is answered 200 and the
    applications are the ones before the application. *)
Theorem apply_then_withdraw
    (pe : ProcessEnv) (env env' : Env) (req req' : Request) (s : Store)
    (token token' : string) (payload payload' : JwtPayload) (postId : Z) :
  req_authorization req = Some ("Bearer " ++ token) ->
  verifyToken pe (env_now env) token = inr payload ->
  jwt_roleId payload = ROLES.JOB_SEEKER ->
  createApplicationSchema (req_body req) = inr postId ->
  spec_first_failure (jwt_userId payload) postId s = None ->
  (forall a, In a (applications s) -> app_id a < seq_application s) ->
  req_authorization req' = Some ("Bearer " ++ token') ->
  verifyToken pe (env_now env') token' = inr payload' ->
  jwt_roleId payload' = ROLES.JOB_SEEKER ->
  jwt_userId payload' = jwt_userId payload ->
  parseInt (req_params_id req') = Some (seq_application s) ->
  let s1 := snd (post_applications pe env req s) in
  fst (delete_application pe env' req' s1)
  = mkResponse 200 (json_message "Application withdrawn successfully")
  /\ applications (snd (delete_application pe env' req' s1))
     = applications s.
Proof.
  intros Hh Hv Hrole Hparse Hnone Hseq Hh' Hv' Hrole' Hsame Hid s1. subst s1.
  unfold post_applications, delete_application.
  rewrite (route_authorized pe (env_now env) ROLES.JOB_SEEKER
             create_application req s token payload Hh Hv Hrole).
  destruct (create_application_store (with_user req payload) s payload postId
              eq_refl Hparse Hnone)
    as [profile [job [Hprofile [_ [_ [_ ->]]]]]].
  set (a := mkApplication (seq_application s) (jsp_id profile) postId
              "pending").
  set (s1 := bump_seq_application _).
  rewrite (route_authorized pe (env_now env') ROLES.JOB_SEEKER
             withdraw_application req' s1 token' payload' Hh' Hv' Hrole').
  assert (Hold : forall x, In x (applications s) ->
                           (app_id x =? seq_application s) = false).
  { intros x Hx. apply Z.eqb_neq. specialize (Hseq x Hx). lia. }
  rewrite (withdraw_application_run (with_user req' payload') s1 payload'
             profile (seq_application s) a eq_refl).
  - cbn [fst snd applications set_applications]. split; [ reflexivity |].
    subst s1. cbn [applications bump_seq_application set_applications].
    rewrite filter_app. cbn [filter app_id]. subst a. cbn [app_id].
    rewrite Z.eqb_refl. cbn [negb]. rewrite app_nil_r.
    apply filter_all. intros x Hx. now rewrite (Hold x Hx).
  - rewrite Hsame. exact Hprofile.
  - exact Hid.
  - unfold prisma.application_findFirst. subst s1.
    cbn [applications bump_seq_application set_applications].
    apply find_snoc_new.
    + apply find_none_iff. intros x Hx. now rewrite (Hold x Hx).
    + subst a. cbn [app_id app_seekerId]. now rewrite !Z.eqb_refl.
Qed.

(** The store after the owner's status update of a posting. *)
Lemma update_job_status_owner_store req s payload shop id job status :
  req_user req = Some payload ->
  get_field "status" (req_body req) = JStr status ->
  In status job_statuses ->
  prisma.shop_findUnique_userId (jwt_userId payload) s = Some shop ->
  parseInt (req_params_id req) = Some id ->
  prisma.shopJobPost_findFirst id (shop_id shop) s = Some job ->
  snd (update_job_status req s)
  = set_shopJobPosts
      (fun _ =>
         map (fun r => if post_id r =? id
                       then mkShopJobPost (post_id r) (post_shopId r) status
                       else r) (shopJobPosts s)) s.
Proof.
  intros Huser Hstatus Hin Hshop Hid Hjob. unfold job_statuses in Hin.
  destruct (job_found_in _ _ _ _ Hjob) as [Hjin [Hjid _]].
  unfold update_job_status. unfold_handler.
  rewrite Hstatus, (includes_accepts _ _ Hin), Huser, Hshop, Hid, Hjob.
  unfold prisma.shopJobPost_update_status, prisma.on_shopJobPosts.
  rewrite <- Hjid.
  rewrite (update_where_found post_id _ job (shopJobPosts s) Hjin).
  cbn [option_map].
  match goal with
  | |- context [prisma.shopJobPost_findUnique ?i ?st] =>
      destruct (prisma.shopJobPost_findUnique i st)
  end; reflexivity.
Qed.

(** X22: closing a posting closes it to applications: after the owner has
    set the status of a posting to closed or completed, an application to it
    by a seeker with a profile is answered 400 "Job is no longer accepting
    applications", whatever the seeker's earlier applications, and the store
    is left as it was. *)
Theorem closed_job_refuses_applications
    (pe : ProcessEnv) (env env' : Env) (req req' : Request) (s : Store)
    (token token' : string) (owner seeker : JwtPayload) (shop : Shop)
    (id : Z) (job : ShopJobPost) (status : string)
    (profile : JobSeekerProfile) :
  req_authorization req = Some ("Bearer " ++ token) ->
  verifyToken pe (env_now env) token = inr owner ->
  jwt_roleId owner = ROLES.SHOP_OWNER ->
  get_field "status" (req_body req) = JStr status ->
  status = "closed" \/ status = "completed" ->
  prisma.shop_findUnique_userId (jwt_userId owner) s = Some shop ->
  parseInt (req_params_id req) = Some id ->
  prisma.shopJobPost_findFirst id (shop_id shop) s = Some job ->
  req_authorization req' = Some ("Bearer " ++ token') ->
  verifyToken pe (env_now env') token' = inr seeker ->
  jwt_roleId seeker = ROLES.JOB_SEEKER ->
  createApplicationSchema (req_body req') = inr id ->
  prisma.jobSeekerProfile_findUnique_userId (jwt_userId seeker) s
  = Some profile ->
  let s1 := snd (patch_job_status pe env req s) in
  post_applications pe env' req' s1
  = (creation_error_response JobClosed, s1).
Proof.
  intros Hh Hv Hrole Hstatus Hclosed Hshop Hid Hjob Hh' Hv' Hrole' Hparse'
    Hprofile s1. subst s1.
  unfold patch_job_status, post_applications.
  rewrite (route_authorized pe (env_now env) ROLES.SHOP_OWNER
             update_job_status req s token owner Hh Hv Hrole).
  assert (Hin : In status job_statuses)
    by (unfold job_statuses; destruct Hclosed; subst; cbn; tauto).
  rewrite (update_job_status_owner_store (with_user req owner) s owner shop id
             job status eq_refl Hstatus Hin Hshop Hid Hjob).
  set (s1 := set_shopJobPosts _ s).
  rewrite (route_authorized pe (env_now env') ROLES.JOB_SEEKER
             create_application req' s1 token' seeker Hh' Hv' Hrole').
  rewrite (create_application_run (with_user req' seeker) s1 seeker id
             eq_refl Hparse').
  unfold spec_first_failure.
  unfold prisma.jobSeekerProfile_findUnique_userId in Hprofile.
  subst s1. cbn [jobSeekerProfiles shopJobPosts set_shopJobPosts].
  rewrite Hprofile.
  destruct (job_found_in _ _ _ _ Hjob) as [Hjin [Hjid _]].
  rewrite find_map_preserving
    by (intros y; destruct (post_id y =? id) eqn:K; cbn; rewrite ?K;
        reflexivity).
  destruct (find (fun j => post_id j =? id) (shopJobPosts s)) as [j0 |] eqn:F.
  2:{ rewrite find_none_iff in F. specialize (F job Hjin).
      rewrite Hjid, Z.eqb_refl in F. discriminate. }
  cbn [option_map]. apply find_some in F. destruct F as [_ F]. rewrite F.
  cbn [post_status].
  destruct Hclosed; subst status; reflexivity.
Qed.

End WorkflowSequences.

(** ** The further properties on the example store *)

Module MoreRuns.
Import Example Example2.

Lemma authenticate_passes_witness :
  authenticate pe (env_now env) (request shop1_token "2" JNull)
  = inr (with_user (request shop1_token "2" JNull)
           (mkJwtPayload 2 "shop1@x.com" 2))
  /\ (forall r, authenticate pe (env_now env) basic_header = inl r ->
                res_status r = 401).
Proof.
  split.
  - apply (proj1 (@authenticate_passes_iff externals pe (env_now env)
                    (request shop1_token "2" JNull)
                    (with_user (request shop1_token "2" JNull)
                       (mkJwtPayload 2 "shop1@x.com" 2)))).
    exists shop1_token, (mkJwtPayload 2 "shop1@x.com" 2).
    split; [ reflexivity | split; reflexivity ].
  - apply (proj2 (@authenticate_passes_iff externals pe (env_now env)
                    basic_header basic_header)).
Defined.

Lemma protected_routes_reject_witness :
  res_status no_token_provided = 401
  /\ post_applications pe env basic_header store = (no_token_provided, store)
  /\ patch_application_status pe env basic_header store
     = (no_token_provided, store)
  /\ delete_application pe env basic_header store
     = (no_token_provided, store)
  /\ patch_job_status pe env basic_header store = (no_token_provided, store).
Proof.
  apply (@protected_routes_reject_unauthenticated externals pe env
           basic_header store no_token_provided).
  reflexivity.
Defined.

Lemma other_role_witness :
  (post_applications pe env (apply_request shop1_token 1) store
   = (insufficient_permissions, store)
   /\ delete_application pe env (apply_request shop1_token 1) store
      = (insufficient_permissions, store))
  /\ (patch_application_status pe env
        (status_request seeker_token "1" "accepted") store
      = (insufficient_permissions, store)
      /\ patch_job_status pe env (status_request seeker_token "1" "accepted")
           store = (insufficient_permissions, store)).
Proof.
  split.
  - apply (proj1 (@other_role_is_forbidden externals pe env
                    (apply_request shop1_token 1) store shop1_token
                    (mkJwtPayload 2 "shop1@x.com" 2) eq_refl eq_refl)).
    discriminate.
  - apply (proj2 (@other_role_is_forbidden externals pe env
                    (status_request seeker_token "1" "accepted") store
                    seeker_token (mkJwtPayload 1 "a@x.com" 1)
                    eq_refl eq_refl)).
    discriminate.
Defined.

Lemma register_taken_email_witness :
  post_register pe env next_user_id (register_request "a@x.com" "hunter22" 2)
    store = (email_already_registered, store).
Proof.
  apply (@register_refuses_taken_email externals pe env next_user_id
           (register_request "a@x.com" "hunter22" 2) store
           (mkRegisterData "a@x.com" "hunter22" 2)
           (mkUser 1 "a@x.com" "s1:secret1" 1 true));
    reflexivity.
Defined.




Lemma login_checks_witness :
  snd (post_login pe env (login_request "a@x.com" "secret1") store) = store
  /\ exists data user role,
       loginSchema (req_body (login_request "a@x.com" "secret1")) = inr data
       /\ prisma.user_findUnique_email (login_email data) store = Some user
       /\ user_isActive user = true
       /\ comparePassword (login_password data) (user_passwordHash user)
          = true
       /\ fst (post_login pe env (login_request "a@x.com" "secret1") store)
          = login_successful pe (env_now env) user role.
Proof.
  split.
  - apply (proj1 (@login_reads_only_and_checks_password externals pe env
                    (login_request "a@x.com" "secret1") store)).
  - apply (proj2 (@login_reads_only_and_checks_password externals pe env
                    (login_request "a@x.com" "secret1") store)).
    reflexivity.
Defined.

Lemma register_then_login_witness :
  let s1 :=
    snd (post_register pe env next_user_id
           (register_request "b@x.com" "hunter22" 2) store) in
  res_status
    (fst (post_register pe env next_user_id
            (register_request "b@x.com" "hunter22" 2) store)) = 201
  /\ post_login pe at_expiry (login_request "b@x.com" "hunter22") s1
     = (login_successful pe (env_now at_expiry)
          (mkUser next_user_id "b@x.com" "salt:hunter22" 2 true)
          (mkRole 2 "shop_owner"), s1).
Proof.
  apply (@register_then_login externals pe env at_expiry next_user_id
           (register_request "b@x.com" "hunter22" 2)
           (login_request "b@x.com" "hunter22") store
           (mkRegisterData "b@x.com" "hunter22" 2) (mkRole 2 "shop_owner"));
    reflexivity.
Defined.

Lemma reset_writes_only_on_200_witness :
  snd (post_reset_password (mkEnv 1000000 (2 ^ 1073) "salt" (Some 1%nat))
         (reset_request "a@x.com" "123456" "abcdef") store) = store.
Proof.
  apply (@reset_writes_only_on_200 externals
           (mkEnv 1000000 (2 ^ 1073) "salt" (Some 1%nat))
           (reset_request "a@x.com" "123456" "abcdef") store).
  discriminate.
Defined.



Lemma reset_then_login_witness :
  let s1 :=
    snd (post_reset_password env (reset_request "a@x.com" "123456" "abcdef")
           store) in
  post_login pe at_expiry (login_request "a@x.com" "abcdef") s1
  = (login_successful pe (env_now at_expiry)
       (mkUser 1 "a@x.com" "salt:abcdef" 1 true) (mkRole 1 "job_seeker"), s1)
  /\ post_login pe at_expiry (login_request "a@x.com" "secret1") s1
     = (invalid_credentials, s1).
Proof.
  split.
  - apply (proj1 (@reset_then_login externals pe env at_expiry
                    (reset_request "a@x.com" "123456" "abcdef")
                    (login_request "a@x.com" "abcdef") store
                    (mkResetPasswordData "a@x.com" "123456" "abcdef")
                    (mkUser 1 "a@x.com" "s1:secret1" 1 true)
                    (mkPasswordReset 1 1 "123456" 1600000 false)
                    (mkRole 1 "job_seeker") "abcdef"
                    eq_refl eq_refl eq_refl eq_refl eq_refl eq_refl eq_refl)).
    reflexivity.
  - apply (proj2 (@reset_then_login externals pe env at_expiry
                    (reset_request "a@x.com" "123456" "abcdef")
                    (login_request "a@x.com" "secret1") store
                    (mkResetPasswordData "a@x.com" "123456" "abcdef")
                    (mkUser 1 "a@x.com" "s1:secret1" 1 true)
                    (mkPasswordReset 1 1 "123456" 1600000 false)
                    (mkRole 1 "job_seeker") "secret1"
                    eq_refl eq_refl eq_refl eq_refl eq_refl eq_refl eq_refl)).
    reflexivity.
Defined.

Lemma forgot_keeps_codes_witness :
  prisma.passwordReset_findFirst 1 "123456" 1000000
    (snd (post_forgot_password env (forgot_request "a@x.com") store))
  = Some (mkPasswordReset 1 1 "123456" 1600000 false).
Proof.
  apply (proj2 (proj2 (@forgot_password_keeps_codes externals env
                         (forgot_request "a@x.com") store))).
  reflexivity.
Defined.

Lemma reset_changes_one_digest_witness :
  In (mkUser 2 "shop1@x.com" "s2:secret2" 2 true)
    (users (snd (post_reset_password env
                   (reset_request "a@x.com" "123456" "abcdef") store))).
Proof.
  apply (proj2 (@reset_changes_one_digest externals env
                  (reset_request "a@x.com" "123456" "abcdef") store)).
  - cbn. tauto.
  - intros data user Hparse Huser. vm_compute in Hparse.
    injection Hparse as <-. vm_compute in Huser. injection Huser as <-.
    discriminate.
Defined.

Lemma store_reset_ids_distinct : NoDup (map pr_id (passwordResets store)).
Proof.
  cbn. repeat (constructor; [ cbn; intuition discriminate |]). constructor.
Qed.

Lemma reset_consumes_one_record_witness :
  In (mkPasswordReset 2 1 "222222" 900000 false)
    (passwordResets
       (snd (post_reset_password env
               (reset_request "a@x.com" "123456" "abcdef") store)))
  \/ (exists data user,
        resetPasswordSchema
          (req_body (reset_request "a@x.com" "123456" "abcdef")) = inr data
        /\ prisma.user_findUnique_email (reset_email data) store = Some user
        /\ prisma.passwordReset_findFirst (user_id user) (reset_otpCode data)
             (env_now env) store
           = Some (mkPasswordReset 2 1 "222222" 900000 false)
        /\ res_status
             (fst (post_reset_password env
                     (reset_request "a@x.com" "123456" "abcdef") store))
           = 200).
Proof.
  apply (@reset_consumes_one_record externals env
           (reset_request "a@x.com" "123456" "abcdef") store
           (mkPasswordReset 2 1 "222222" 900000 false)).
  - exact store_reset_ids_distinct.
  - cbn. tauto.
Defined.

Lemma store_applications_keyed : applications_keyed store.
Proof.
  unfold applications_keyed. cbn. split; [| split ].
  - repeat (constructor; [ cbn; intuition discriminate |]). constructor.
  - intros a [<- | [<- | []]]; cbn; lia.
  - repeat (constructor; [ cbn; intuition discriminate |]). constructor.
Qed.


Lemma store_application_ids_distinct :
  NoDup (map app_id (applications store)).
Proof. exact (proj1 store_applications_keyed). Qed.

Lemma store_post_ids_distinct : NoDup (map post_id (shopJobPosts store)).
Proof.
  cbn. repeat (constructor; [ cbn; intuition discriminate |]). constructor.
Qed.

(** Shop 1 asks to reject application 1, an application to a posting of
    shop 2. *)
Lemma application_spared_witness :
  In (mkApplication 1 1 3 "accepted")
    (applications
       (snd (patch_application_status pe env
               (status_request shop1_token "1" "rejected") store))).
Proof.
  apply (@application_status_update_spares_other_shops externals pe env
           (status_request shop1_token "1" "rejected") store
           (mkApplication 1 1 3 "accepted")).
  - exact store_application_ids_distinct.
  - cbn. tauto.
  - intros token payload Hh Hv [shop [post [Hs [Hp Ho]]]].
    cbn in Hh. injection Hh as <-. vm_compute in Hv. injection Hv as <-.
    vm_compute in Hs. injection Hs as <-. vm_compute in Hp.
    injection Hp as <-. discriminate.
Defined.

(** Shop 1 asks to close posting 3, a posting of shop 2. *)
Lemma job_spared_witness :
  In (mkShopJobPost 3 2 "open")
    (shopJobPosts
       (snd (patch_job_status pe env (status_request shop1_token "3" "closed")
               store))).
Proof.
  apply (@job_status_update_spares_other_shops externals pe env
           (status_request shop1_token "3" "closed") store
           (mkShopJobPost 3 2 "open")).
  - exact store_post_ids_distinct.
  - cbn. tauto.
  - intros token payload Hh Hv [shop [Hs Ho]].
    cbn in Hh. injection Hh as <-. vm_compute in Hv. injection Hv as <-.
    vm_compute in Hs. injection Hs as <-. discriminate.
Defined.

(** Seeker 1 asks to withdraw application 2, an application of the seeker
    profile 2. *)
Lemma withdrawal_spared_witness :
  In (mkApplication 2 2 1 "pending")
    (applications
       (snd (delete_application pe env (request seeker_token "2" JNull)
               store))).
Proof.
  apply (@withdrawal_spares_other_seekers externals pe env
           (request seeker_token "2" JNull) store
           (mkApplication 2 2 1 "pending")).
  - exact store_application_ids_distinct.
  - cbn. tauto.
  - intros token payload Hh Hv [profile [Hp Ho]].
    cbn in Hh. injection Hh as <-. vm_compute in Hv. injection Hv as <-.
    vm_compute in Hp. injection Hp as <-. discriminate.
Defined.

Lemma apply_twice_witness :
  let s1 :=
    snd (post_applications pe env (apply_request seeker_token 1) store) in
  res_status
    (fst (post_applications pe env (apply_request seeker_token 1) store))
  = 201
  /\ post_applications pe at_expiry (apply_request seeker_token 1) s1
     = (creation_error_response DuplicateApplication, s1).
Proof.
  apply (@apply_twice_is_duplicate externals pe env at_expiry
           (apply_request seeker_token 1) (apply_request seeker_token 1) store
           seeker_token seeker_token (mkJwtPayload 1 "a@x.com" 1)
           (mkJwtPayload 1 "a@x.com" 1) 1);
    reflexivity.
Defined.

Lemma apply_then_withdraw_witness :
  let s1 :=
    snd (post_applications pe env (apply_request seeker_token 1) store) in
  fst (delete_application pe at_expiry (request seeker_token "3" JNull) s1)
  = mkResponse 200 (json_message "Application withdrawn successfully")
  /\ applications
       (snd (delete_application pe at_expiry (request seeker_token "3" JNull)
               s1))
     = applications store.
Proof.
  apply (@apply_then_withdraw externals pe env at_expiry
           (apply_request seeker_token 1) (request seeker_token "3" JNull)
           store seeker_token seeker_token (mkJwtPayload 1 "a@x.com" 1)
           (mkJwtPayload 1 "a@x.com" 1) 1);
    try reflexivity.
  exact (proj1 (proj2 store_applications_keyed)).
Defined.

Lemma closed_job_refuses_witness :
  let s1 :=
    snd (patch_job_status pe env (status_request shop1_token "1" "closed")
           store) in
  post_applications pe at_expiry (apply_request seeker_token 1) s1
  = (creation_error_response JobClosed, s1).
Proof.
  apply (@closed_job_refuses_applications externals pe env at_expiry
           (status_request shop1_token "1" "closed")
           (apply_request seeker_token 1) store shop1_token seeker_token
           (mkJwtPayload 2 "shop1@x.com" 2) (mkJwtPayload 1 "a@x.com" 1)
           (mkShop 1 2) 1 (mkShopJobPost 1 1 "open") "closed"
           (mkJobSeekerProfile 1 1));
    try reflexivity.
  now left.
Defined.

End MoreRuns.
